(** * Energy arbitrage with linear programming: the [Battery] model and the
    day-by-day simulation of [codigo_tfm_prog_objetos.py]

    The development embeds the class [Battery] (decision variables, objective,
    storage and throughput constraints, solve, output collection) and the
    driver [simulate_battery].  PuLP is an external library: its objects are
    modelled by the records below (an affine expression is a list of weighted
    variables plus a constant, a problem is an objective and an ordered list
    of constraints), and the solver behind [LpProblem.solve] is a parameter.
    Numbers are rationals: sums and products are exact, where the program
    computes them in binary64; the rounding of its floating-point operations
    is not modelled. *)

From Stdlib Require Import QArith Qabs Lia Lqa String.
From stdpp Require Import base option list gmap.

Open Scope Q_scope.

(** ** Python exceptions and the error monad *)

Inductive PyError : Type :=
| AssertionError (msg : string)
| KeyError (key : string) (index : nat)
| IndexError
| TypeError.

Inductive result (A : Type) : Type :=
| Ok (a : A)
| Raise (e : PyError).
Arguments Ok {A} a.
Arguments Raise {A} e.

#[global] Instance result_ret : MRet result := fun A a => Ok a.
#[global] Instance result_bind : MBind result := fun A B f m =>
  match m with
  | Ok a => f a
  | Raise e => Raise e
  end.
#[global] Instance result_fmap : FMap result := fun A B f m =>
  match m with
  | Ok a => Ok (f a)
  | Raise e => Raise e
  end.

Definition is_Ok {A} (r : result A) : Prop :=
  match r with Ok _ => True | Raise _ => False end.

(** ** PuLP objects *)

(** [LpVariable.dicts("charging_power", (f'c_t_{i}' ...))] names its variables
    [charging_power_c_t_i]; likewise [discharging_power_d_t_i]. *)
Inductive VarName : Type :=
| charging_power_c_t (i : nat)
| discharging_power_d_t (i : nat).

#[global] Instance VarName_eq_dec : EqDecision VarName.
Proof. solve_decision. Defined.

Inductive LpCategory : Type := Continuous | Integer | Binary.

Record LpVariable : Type := mkLpVariable {
  name : VarName;
  lowBound : option Q;
  upBound : option Q;
  cat : LpCategory;
  varValue : option Q
}.

(** [LpAffineExpression]: weighted variables and a constant. *)
Record LpAffineExpression : Type := mkAffine {
  terms : list (VarName * Q);
  constant : Q
}.

Definition affine_of_pairs (ps : list (VarName * Q)) : LpAffineExpression :=
  {| terms := ps; constant := 0 |}.

Definition affine_add (e1 e2 : LpAffineExpression) : LpAffineExpression :=
  {| terms := terms e1 ++ terms e2; constant := constant e1 + constant e2 |}.

Definition affine_neg_terms (ps : list (VarName * Q)) : list (VarName * Q) :=
  map (fun p => (fst p, - snd p)) ps.

Definition affine_sub (e1 e2 : LpAffineExpression) : LpAffineExpression :=
  {| terms := terms e1 ++ affine_neg_terms (terms e2);
     constant := constant e1 - constant e2 |}.

(** [number + expression] and [expression - number]. *)
Definition affine_radd (c : Q) (e : LpAffineExpression) : LpAffineExpression :=
  {| terms := terms e; constant := constant e + c |}.

Definition affine_sub_const (e : LpAffineExpression) (c : Q) : LpAffineExpression :=
  {| terms := terms e; constant := constant e - c |}.

Inductive LpConstraintSense : Type := LpConstraintLE | LpConstraintEQ | LpConstraintGE.

(** [expression >= number] builds [LpConstraint(expression - number, GE)]:
    a constraint compares its expression with zero. *)
Record LpConstraint : Type := mkConstraint {
  expr : LpAffineExpression;
  sense : LpConstraintSense
}.

Definition affine_ge (e : LpAffineExpression) (c : Q) : LpConstraint :=
  {| expr := affine_sub_const e c; sense := LpConstraintGE |}.

Definition affine_le (e : LpAffineExpression) (c : Q) : LpConstraint :=
  {| expr := affine_sub_const e c; sense := LpConstraintLE |}.

(** [pulp.LpStatus]. *)
Inductive LpStatus : Type :=
| LpStatusNotSolved
| LpStatusOptimal
| LpStatusInfeasible
| LpStatusUnbounded
| LpStatusUndefined.

Definition LpStatus_name (s : LpStatus) : string :=
  match s with
  | LpStatusNotSolved => "Not Solved"
  | LpStatusOptimal => "Optimal"
  | LpStatusInfeasible => "Infeasible"
  | LpStatusUnbounded => "Unbounded"
  | LpStatusUndefined => "Undefined"
  end.

Inductive LpObjectiveSense : Type := LpMinimize | LpMaximize.

Record LpProblem : Type := mkLpProblem {
  problem_sense : LpObjectiveSense;
  objective : option LpAffineExpression;
  constraints : list LpConstraint;
  status : LpStatus
}.

Definition LpProblem_new (s : LpObjectiveSense) : LpProblem :=
  {| problem_sense := s; objective := None; constraints := []; status := LpStatusNotSolved |}.

(** [model += expression] replaces the objective; [model += constraint]
    appends the constraint to the ones the problem already has. *)
Definition LpProblem_iadd_objective (p : LpProblem) (e : LpAffineExpression) : LpProblem :=
  {| problem_sense := problem_sense p; objective := Some e;
     constraints := constraints p; status := status p |}.

Definition LpProblem_iadd_constraint (p : LpProblem) (c : LpConstraint) : LpProblem :=
  {| problem_sense := problem_sense p; objective := objective p;
     constraints := constraints p ++ [c]; status := status p |}.

(** [LpVariable.dicts]: one variable per index, keyed by the index.  The key
    [f'c_t_{i}'] (or [f'd_t_{i}']) is represented by [i]. *)
Definition LpVariable_dicts (mk : nat -> VarName) (indices : list nat)
    (low up : option Q) (c : LpCategory) : gmap nat LpVariable :=
  list_to_map
    (map (fun i => (i, {| name := mk i; lowBound := low; upBound := up;
                         cat := c; varValue := None |})) indices).

(** ** The class [Battery] *)

Record Battery : Type := mkBattery {
  time_horizon : nat;
  charge : gmap nat LpVariable;
  discharge : gmap nat LpVariable;
  model : LpProblem
}.

Definition Battery_init (time_horizon : nat)
    (max_discharge_power_capacity max_charge_power_capacity : Q) : Battery :=
  {| time_horizon := time_horizon;
     charge := LpVariable_dicts charging_power_c_t (seq 0 time_horizon)
                 (Some 0) (Some max_charge_power_capacity) Continuous;
     discharge := LpVariable_dicts discharging_power_d_t (seq 0 time_horizon)
                 (Some 0) (Some max_discharge_power_capacity) Continuous;
     model := LpProblem_new LpMaximize |}.

Definition set_model (b : Battery) (m : LpProblem) : Battery :=
  {| time_horizon := time_horizon b; charge := charge b;
     discharge := discharge b; model := m |}.

(** [d[key]] on a dict and [a[i]] on an array. *)
Definition getitem (key : string) (d : gmap nat LpVariable) (i : nat) : result LpVariable :=
  match d !! i with
  | Some v => Ok v
  | None => Raise (KeyError key i)
  end.

Definition index {A} (l : list A) (i : nat) : result A :=
  match l !! i with
  | Some x => Ok x
  | None => Raise IndexError
  end.

(** A list comprehension whose body may raise. *)
Fixpoint comprehension {A B} (f : A -> result B) (l : list A) : result (list B) :=
  match l with
  | [] => Ok []
  | x :: l' => y ← f x; ys ← comprehension f l'; Ok (y :: ys)
  end.

Definition set_objective (self : Battery) (prices : list Q) : result Battery :=
  if Nat.eqb (length prices) (time_horizon self) then
    cs ← comprehension
           (fun i => v ← getitem "c_t" (charge self) i;
                     p ← index prices i;
                     Ok (name v, (-1 # 1) * p))
           (seq 0 (time_horizon self));
    ds ← comprehension
           (fun i => v ← getitem "d_t" (discharge self) i;
                     p ← index prices i;
                     Ok (name v, p))
           (seq 0 (time_horizon self));
    Ok (set_model self
          (LpProblem_iadd_objective (model self)
             (affine_add (affine_of_pairs cs) (affine_of_pairs ds))))
  else Raise (AssertionError "Error: need one price for each hour in time horizon").

(** A [for] loop whose body updates a state and may raise. *)
Fixpoint for_in {S A} (l : list A) (body : A -> S -> result S) (s : S) : result S :=
  match l with
  | [] => Ok s
  | x :: l' => s' ← body x s; for_in l' body s'
  end.

(** [initial_level + LpAffineExpression(charge) - LpAffineExpression(discharge)]
    for the first [hour_of_sim] hours. *)
Definition storage_level (self : Battery) (efficiency discharge_efficiency initial_level : Q)
    (hour_of_sim : nat) : result LpAffineExpression :=
  cs ← comprehension
         (fun i => v ← getitem "c_t" (charge self) i; Ok (name v, efficiency))
         (seq 0 hour_of_sim);
  ds ← comprehension
         (fun i => v ← getitem "d_t" (discharge self) i; Ok (name v, discharge_efficiency))
         (seq 0 hour_of_sim);
  Ok (affine_sub (affine_radd initial_level (affine_of_pairs cs)) (affine_of_pairs ds)).

Definition add_storage_constraints (self : Battery)
    (efficiency min_capacity discharge_energy_capacity discharge_efficiency initial_level : Q)
    : result Battery :=
  self1 ← for_in (seq 1 (time_horizon self))
            (fun hour_of_sim self =>
               e ← storage_level self efficiency discharge_efficiency initial_level hour_of_sim;
               Ok (set_model self (LpProblem_iadd_constraint (model self) (affine_ge e min_capacity))))
            self;
  for_in (seq 1 (time_horizon self1))
    (fun hour_of_sim self =>
       e ← storage_level self efficiency discharge_efficiency initial_level hour_of_sim;
       Ok (set_model self
             (LpProblem_iadd_constraint (model self) (affine_le e discharge_energy_capacity))))
    self1.

(** [pulp.lpSum] of variables: every variable with coefficient one. *)
Definition lpSum (vs : list LpVariable) : LpAffineExpression :=
  affine_of_pairs (map (fun v => (name v, 1)) vs).

Definition add_throughput_constraints (self : Battery) (max_daily_discharged_throughput : Q)
    : result Battery :=
  vs ← comprehension (fun i => getitem "d_t" (discharge self) i) (seq 0 (time_horizon self));
  Ok (set_model self
        (LpProblem_iadd_constraint (model self)
           (affine_le (lpSum vs) max_daily_discharged_throughput))).

(** ** The solver and the observable effects *)

(** The variables the problem refers to, with their bounds. *)
Definition battery_variables (self : Battery) : list LpVariable :=
  map snd (map_to_list (charge self)) ++ map snd (map_to_list (discharge self)).

(** What [LpProblem.solve] computes: a status and a value (or none) for each
    variable. *)
Definition Solver : Type :=
  list LpVariable -> LpProblem -> LpStatus * (VarName -> option Q).

(** What the program does to the outside: the lines it prints and the calls
    it makes to the solver.  The last line of [simulate_battery], the elapsed
    time read from the clock, is left out. *)
Inductive Event : Type :=
| Print_trying_cycle (day_count : nat)
| Print_warning (status : string)
| Solver_call (vs : list LpVariable) (p : LpProblem).

(** Computations that log events and may raise; the events logged before an
    exception are kept. *)
Definition Sim (A : Type) : Type := list Event -> list Event * result A.

#[global] Instance Sim_ret : MRet Sim := fun A a log => (log, Ok a).
#[global] Instance Sim_bind : MBind Sim := fun A B f m log =>
  match m log with
  | (log', Ok a) => f a log'
  | (log', Raise e) => (log', Raise e)
  end.

Definition emit (e : Event) : Sim unit := fun log => (log ++ [e], Ok tt).

Definition lift {A} (r : result A) : Sim A := fun log => (log, r).

Definition assign_values (vals : VarName -> option Q) (d : gmap nat LpVariable)
    : gmap nat LpVariable :=
  (fun v => {| name := name v; lowBound := lowBound v; upBound := upBound v;
               cat := cat v; varValue := vals (name v) |}) <$> d.

Definition set_status (p : LpProblem) (s : LpStatus) : LpProblem :=
  {| problem_sense := problem_sense p; objective := objective p;
     constraints := constraints p; status := s |}.

Definition solve_model (solver : Solver) (self : Battery) : Sim Battery :=
  _ ← emit (Solver_call (battery_variables self) (model self));
  let '(st, vals) := solver (battery_variables self) (model self) in
  let self' := {| time_horizon := time_horizon self;
                  charge := assign_values vals (charge self);
                  discharge := assign_values vals (discharge self);
                  model := set_status (model self) st |} in
  if String.eqb (LpStatus_name (status (model self'))) "Optimal"
  then mret self'
  else _ ← emit (Print_warning (LpStatus_name (status (model self')))); mret self'.

Definition collect_output (self : Battery) : result (list (option Q) * list (option Q)) :=
  hourly_charges ← comprehension
                     (fun i => v ← getitem "c_t" (charge self) i; Ok (varValue v))
                     (seq 0 24);
  hourly_discharges ← comprehension
                        (fun i => v ← getitem "d_t" (discharge self) i; Ok (varValue v))
                        (seq 0 24);
  Ok (hourly_charges, hourly_discharges).

(** ** Array arithmetic of the driver *)

(** An array read back from the variables holds numbers or [None]; arithmetic
    on [None] raises [TypeError]. *)
Definition number (x : option Q) : result Q :=
  match x with
  | Some q => Ok q
  | None => Raise TypeError
  end.

(** The builtin [sum]: starts from zero and adds from the left. *)
Definition py_sum (l : list (option Q)) : result Q :=
  for_in l (fun x acc => q ← number x; Ok (acc + q)) 0.

Definition np_scale (l : list (option Q)) (c : Q) : result (list Q) :=
  comprehension (fun x => q ← number x; Ok (q * c)) l.

Fixpoint np_sub (l1 l2 : list Q) : list Q :=
  match l1, l2 with
  | x :: l1', y :: l2' => (x - y) :: np_sub l1' l2'
  | _, _ => []
  end.

Fixpoint cumsum_from (acc : Q) (l : list Q) : list Q :=
  match l with
  | [] => []
  | x :: l' => (acc + x) :: cumsum_from (acc + x) l'
  end.

Definition np_cumsum (l : list Q) : list Q :=
  match l with
  | [] => []
  | x :: l' => x :: cumsum_from x l'
  end.

Definition np_add_scalar (c : Q) (l : list Q) : list Q := map (fun x => c + x) l.

(** [a[-1]]. *)
Definition index_last {A} (l : list A) : result A :=
  match last l with
  | Some x => Ok x
  | None => Raise IndexError
  end.

(** ** The driver [simulate_battery] *)

(** The variables the loop of [simulate_battery] carries from one day to the
    next. *)
Record SimState : Type := mkSimState {
  battery : Battery;
  initial_level : Q;
  all_hourly_charges : list (option Q);
  all_hourly_discharges : list (option Q);
  all_hourly_state_of_energy : list Q;
  all_daily_discharge_throughput : list Q
}.

(** [price_data.loc[24 * day_count : 24 * day_count + time_horizon - 1]['value'].values]
    on a frame indexed 0, 1, 2, ...: label slices include both ends. *)
Definition data_for_this_day (price_data : list Q) (day_count time_horizon : nat) : list Q :=
  firstn time_horizon (skipn (24 * day_count) price_data).

(** A pandas [Timestamp]: nanoseconds since the epoch. *)
Definition Timestamp : Type := Z.

Section Simulation.

Variable solver : Solver.

(** The body of [for day_count in range(...)]. *)
Definition simulate_day (price_data : list Q)
    (discharge_energy_capacity efficiency discharge_efficiency
     max_daily_discharged_throughput : Q)
    (time_horizon : nat) (min_capacity : Q)
    (day_count : nat) (s : SimState) : Sim SimState :=
  _ ← emit (Print_trying_cycle day_count);
  let prices := data_for_this_day price_data day_count time_horizon in
  b1 ← lift (set_objective (battery s) prices);
  b2 ← lift (add_storage_constraints b1 efficiency min_capacity
               discharge_energy_capacity discharge_efficiency (initial_level s));
  b3 ← lift (add_throughput_constraints b2 max_daily_discharged_throughput);
  b4 ← solve_model solver b3;
  out ← lift (collect_output b4);
  let hourly_charges := fst out in
  let hourly_discharges := snd out in
  daily_discharge_throughput ← lift (py_sum hourly_discharges);
  charged ← lift (np_scale hourly_charges efficiency);
  discharged ← lift (np_scale hourly_discharges discharge_efficiency);
  let net_hourly_activity := np_sub charged discharged in
  let cumulative_hourly_activity := np_cumsum net_hourly_activity in
  let state_of_energy_from_t2 :=
    np_add_scalar (initial_level s) cumulative_hourly_activity in
  next_level ← lift (index_last state_of_energy_from_t2);
  mret {| battery := b4;
          initial_level := next_level;
          all_hourly_charges := all_hourly_charges s ++ hourly_charges;
          all_hourly_discharges := all_hourly_discharges s ++ hourly_discharges;
          all_hourly_state_of_energy :=
            all_hourly_state_of_energy s ++ state_of_energy_from_t2;
          all_daily_discharge_throughput :=
            all_daily_discharge_throughput s ++ [daily_discharge_throughput] |}.

Fixpoint simulate_days (body : nat -> SimState -> Sim SimState)
    (days : list nat) (s : SimState) : Sim SimState :=
  match days with
  | [] => mret s
  | day_count :: days' => s' ← body day_count s; simulate_days body days' s'
  end.

(** [simulate_battery] with the bound of its loop, [range(1)] in the source
    (marked "Set to sim length"), as the first argument. *)
Definition simulate_battery_for (sim_length : nat)
    (initial_level : Q) (price_data : list Q)
    (max_discharge_power_capacity max_charge_power_capacity
     discharge_energy_capacity efficiency discharge_efficiency
     max_daily_discharged_throughput : Q)
    (time_horizon : nat) (start_day : option Timestamp) (min_capacity : Q)
    : Sim (list (option Q) * list (option Q) * list Q * list Q) :=
  let battery := Battery_init time_horizon max_discharge_power_capacity
                   max_charge_power_capacity in
  s ← simulate_days
        (simulate_day price_data discharge_energy_capacity efficiency
           discharge_efficiency max_daily_discharged_throughput time_horizon min_capacity)
        (seq 0 sim_length)
        {| battery := battery; initial_level := initial_level;
           all_hourly_charges := []; all_hourly_discharges := [];
           all_hourly_state_of_energy := []; all_daily_discharge_throughput := [] |};
  mret (all_hourly_charges s, all_hourly_discharges s,
        all_hourly_state_of_energy s, all_daily_discharge_throughput s).

Definition simulate_battery := simulate_battery_for 1.

End Simulation.

(** ** Meaning of expressions, constraints and problems *)

Definition assignment : Type := VarName -> Q.

Fixpoint eval_terms (a : assignment) (ps : list (VarName * Q)) : Q :=
  match ps with
  | [] => 0
  | (v, c) :: ps' => c * a v + eval_terms a ps'
  end.

Definition eval (a : assignment) (e : LpAffineExpression) : Q :=
  eval_terms a (terms e) + constant e.

Definition holds (a : assignment) (c : LpConstraint) : Prop :=
  match sense c with
  | LpConstraintLE => eval a (expr c) <= 0
  | LpConstraintEQ => eval a (expr c) == 0
  | LpConstraintGE => 0 <= eval a (expr c)
  end.

Definition within_bounds (a : assignment) (v : LpVariable) : Prop :=
  match lowBound v with Some l => l <= a (name v) | None => True end /\
  match upBound v with Some u => a (name v) <= u | None => True end.

Definition feasible (vs : list LpVariable) (p : LpProblem) (a : assignment) : Prop :=
  Forall (within_bounds a) vs /\ Forall (holds a) (constraints p).

Definition objective_value (p : LpProblem) (a : assignment) : Q :=
  match objective p with
  | Some e => eval a e
  | None => 0
  end.

(** [a] is a best feasible assignment of a maximisation problem. *)
Definition optimal (vs : list LpVariable) (p : LpProblem) (a : assignment) : Prop :=
  feasible vs p a /\
  forall a', feasible vs p a' -> objective_value p a' <= objective_value p a.

(** ** Sums over the first hours *)

(** [sum_upto n f] is f 0 + ... + f (n-1). *)
Fixpoint sum_upto (n : nat) (f : nat -> Q) : Q :=
  match n with
  | O => 0
  | S n' => sum_upto n' f + f n'
  end.

(** The state of energy at the end of hour [k] (after [k] hours) under the
    assignment [a]. *)
Definition state_of_energy (a : assignment) (efficiency discharge_efficiency initial_level : Q)
    (k : nat) : Q :=
  initial_level +
  sum_upto k (fun i => a (charging_power_c_t i) * efficiency
                       - a (discharging_power_d_t i) * discharge_efficiency).

(** The profit of a schedule. *)
Definition profit (a : assignment) (prices : list Q) (n : nat) : Q :=
  sum_upto n (fun i => a (discharging_power_d_t i) * nth i prices 0
                       - a (charging_power_c_t i) * nth i prices 0).

(** ** Well-formed batteries *)

(** A battery as [Battery.__init__] builds it, whatever happened to its
    model and to the values of its variables since. *)
Record wf_battery (H : nat) (maxD maxC : Q) (b : Battery) : Prop := {
  wf_horizon : time_horizon b = H;
  wf_charge : forall i, (i < H)%nat ->
    exists v, charge b !! i = Some v /\ name v = charging_power_c_t i /\
              lowBound v = Some 0 /\ upBound v = Some maxC;
  wf_charge_out : forall i, (H <= i)%nat -> charge b !! i = None;
  wf_discharge : forall i, (i < H)%nat ->
    exists v, discharge b !! i = Some v /\ name v = discharging_power_d_t i /\
              lowBound v = Some 0 /\ upBound v = Some maxD;
  wf_discharge_out : forall i, (H <= i)%nat -> discharge b !! i = None
}.

(** ** What the methods attach to the model, in closed form *)

Definition objective_expression (prices : list Q) (H : nat) : LpAffineExpression :=
  affine_add
    (affine_of_pairs (map (fun i => (charging_power_c_t i, (-1 # 1) * nth i prices 0)) (seq 0 H)))
    (affine_of_pairs (map (fun i => (discharging_power_d_t i, nth i prices 0)) (seq 0 H))).

Definition storage_expression (efficiency discharge_efficiency initial_level : Q) (k : nat)
    : LpAffineExpression :=
  affine_sub
    (affine_radd initial_level
       (affine_of_pairs (map (fun i => (charging_power_c_t i, efficiency)) (seq 0 k))))
    (affine_of_pairs (map (fun i => (discharging_power_d_t i, discharge_efficiency)) (seq 0 k))).

Definition storage_lower (efficiency discharge_efficiency initial_level min_capacity : Q)
    (k : nat) : LpConstraint :=
  affine_ge (storage_expression efficiency discharge_efficiency initial_level k) min_capacity.

Definition storage_upper (efficiency discharge_efficiency initial_level
    discharge_energy_capacity : Q) (k : nat) : LpConstraint :=
  affine_le (storage_expression efficiency discharge_efficiency initial_level k)
    discharge_energy_capacity.

(** The constraints one call of [add_storage_constraints] attaches. *)
Definition storage_constraints (H : nat)
    (efficiency min_capacity discharge_energy_capacity discharge_efficiency initial_level : Q)
    : list LpConstraint :=
  map (storage_lower efficiency discharge_efficiency initial_level min_capacity) (seq 1 H) ++
  map (storage_upper efficiency discharge_efficiency initial_level discharge_energy_capacity)
    (seq 1 H).

Definition throughput_constraint (H : nat) (max_daily_discharged_throughput : Q)
    : LpConstraint :=
  affine_le (affine_of_pairs (map (fun i => (discharging_power_d_t i, 1)) (seq 0 H)))
    max_daily_discharged_throughput.

Definition add_constraints (p : LpProblem) (cs : list LpConstraint) : LpProblem :=
  {| problem_sense := problem_sense p; objective := objective p;
     constraints := constraints p ++ cs; status := status p |}.

(** The problem one day of the simulation hands to the solver, starting from
    the problem [p] the battery holds when the day begins. *)
Definition day_problem (p : LpProblem) (prices : list Q) (H : nat)
    (efficiency min_capacity discharge_energy_capacity discharge_efficiency initial_level
     max_daily_discharged_throughput : Q) : LpProblem :=
  add_constraints
    (add_constraints
       (LpProblem_iadd_objective p (objective_expression prices H))
       (storage_constraints H efficiency min_capacity discharge_energy_capacity
          discharge_efficiency initial_level))
    [throughput_constraint H max_daily_discharged_throughput].

(** The battery after [solve_model]. *)
Definition solved (solver : Solver) (self : Battery) : Battery :=
  {| time_horizon := time_horizon self;
     charge := assign_values (snd (solver (battery_variables self) (model self))) (charge self);
     discharge := assign_values (snd (solver (battery_variables self) (model self)))
                    (discharge self);
     model := set_status (model self) (fst (solver (battery_variables self) (model self))) |}.

(** What [solve_model] prints for a status. *)
Definition warning (st : LpStatus) : list Event :=
  match st with
  | LpStatusOptimal => []
  | _ => [Print_warning (LpStatus_name st)]
  end.

(** The state of energy at the end of each hour of a day, from the hourly
    charges [cv] and discharges [dv]. *)
Definition day_trajectory (initial_level efficiency discharge_efficiency : Q)
    (cv dv : list Q) : list Q :=
  np_add_scalar initial_level
    (np_cumsum (np_sub (map (fun q => q * efficiency) cv)
                       (map (fun q => q * discharge_efficiency) dv))).

(** The value read back from a variable of a dictionary. *)
Definition value_at (d : gmap nat LpVariable) (i : nat) : option Q :=
  match d !! i with
  | Some v => varValue v
  | None => None
  end.

(** The hourly values of one kind of variable over the 24 hours of a day. *)
Definition day_values (vals : VarName -> option Q) (mk : nat -> VarName) : list Q :=
  map (fun i => default 0 (vals (mk i))) (seq 0 24).

(** One day of the simulation in closed form: the battery handed to the
    solver, the events of the day and the state after the day. *)
Definition day_battery (price_data : list Q)
    (discharge_energy_capacity efficiency discharge_efficiency
     max_daily_discharged_throughput : Q) (H : nat) (min_capacity : Q)
    (day_count : nat) (s : SimState) : Battery :=
  set_model (battery s)
    (day_problem (model (battery s)) (data_for_this_day price_data day_count H) H
       efficiency min_capacity discharge_energy_capacity discharge_efficiency
       (initial_level s) max_daily_discharged_throughput).

Definition day_events (solver : Solver) (b3 : Battery) (day_count : nat) : list Event :=
  Print_trying_cycle day_count
  :: Solver_call (battery_variables b3) (model b3)
  :: warning (fst (solver (battery_variables b3) (model b3))).

Definition day_step (solver : Solver) (b3 : Battery)
    (efficiency discharge_efficiency : Q) (s : SimState) : SimState :=
  let vals := snd (solver (battery_variables b3) (model b3)) in
  let cv := day_values vals charging_power_c_t in
  let dv := day_values vals discharging_power_d_t in
  let trajectory := day_trajectory (initial_level s) efficiency discharge_efficiency cv dv in
  {| battery := solved solver b3;
     initial_level := default (initial_level s) (last trajectory);
     all_hourly_charges := all_hourly_charges s ++ map Some cv;
     all_hourly_discharges := all_hourly_discharges s ++ map Some dv;
     all_hourly_state_of_energy := all_hourly_state_of_energy s ++ trajectory;
     all_daily_discharge_throughput :=
       all_daily_discharge_throughput s ++ [fold_left Qplus dv 0] |}.

(** The days of a simulation in closed form: the events and the final state. *)
Fixpoint run_days (solver : Solver) (price_data : list Q)
    (discharge_energy_capacity efficiency discharge_efficiency
     max_daily_discharged_throughput : Q) (H : nat) (min_capacity : Q)
    (days : list nat) (s : SimState) : list Event * SimState :=
  match days with
  | [] => ([], s)
  | day_count :: days' =>
      let b3 := day_battery price_data discharge_energy_capacity efficiency
                  discharge_efficiency max_daily_discharged_throughput H min_capacity
                  day_count s in
      let r := run_days solver price_data discharge_energy_capacity efficiency
                 discharge_efficiency max_daily_discharged_throughput H min_capacity
                 days' (day_step solver b3 efficiency discharge_efficiency s) in
      (day_events solver b3 day_count ++ fst r, snd r)
  end.

(** The state [simulate_battery] starts its loop with. *)
Definition start_state (H : nat) (maxD maxC initial_level : Q) : SimState :=
  {| battery := Battery_init H maxD maxC; initial_level := initial_level;
     all_hourly_charges := []; all_hourly_discharges := [];
     all_hourly_state_of_energy := []; all_daily_discharge_throughput := [] |}.

(** The number of calls to the solver in a log. *)
Fixpoint solver_calls (log : list Event) : nat :=
  match log with
  | [] => 0
  | Solver_call _ _ :: log' => S (solver_calls log')
  | _ :: log' => solver_calls log'
  end.

(** The three calls that prepare the model of a day, in the order of the
    loop body. *)
Definition prepare_day (self : Battery) (prices : list Q)
    (efficiency min_capacity discharge_energy_capacity discharge_efficiency initial_level
     max_daily_discharged_throughput : Q) : result Battery :=
  b1 ← set_objective self prices;
  b2 ← add_storage_constraints b1 efficiency min_capacity discharge_energy_capacity
         discharge_efficiency initial_level;
  add_throughput_constraints b2 max_daily_discharged_throughput.

(** The day counts of the lines "Trying cycle" of a log, in order. *)
Fixpoint cycles (log : list Event) : list nat :=
  match log with
  | [] => []
  | Print_trying_cycle d :: log' => d :: cycles log'
  | _ :: log' => cycles log'
  end.

(** No variable of the battery holds a value. *)
Definition unsolved (self : Battery) : Prop :=
  forall i, value_at (charge self) i = None /\ value_at (discharge self) i = None.

(** ** Solvers *)

(** A solver is sound when the values it reports with status [Optimal]
    satisfy the bounds and the constraints of the problem it was given. *)
Definition solver_sound (solver : Solver) : Prop :=
  forall vs p, fst (solver vs p) = LpStatusOptimal ->
    exists a, feasible vs p a /\ forall v, snd (solver vs p) v = Some (a v).

(** A solver binds the variables when it leaves a number in each of them,
    whatever the status. *)
Definition solver_binds (solver : Solver) : Prop :=
  forall vs p v, is_Some (snd (solver vs p) v).

(** Decidable feasibility. *)
Definition holdsb (a : assignment) (c : LpConstraint) : bool :=
  match sense c with
  | LpConstraintLE => Qle_bool (eval a (expr c)) 0
  | LpConstraintEQ => Qeq_bool (eval a (expr c)) 0
  | LpConstraintGE => Qle_bool 0 (eval a (expr c))
  end.

Definition within_boundsb (a : assignment) (v : LpVariable) : bool :=
  match lowBound v with Some l => Qle_bool l (a (name v)) | None => true end &&
  match upBound v with Some u => Qle_bool (a (name v)) u | None => true end.

Definition feasibleb (vs : list LpVariable) (p : LpProblem) (a : assignment) : bool :=
  forallb (within_boundsb a) vs && forallb (holdsb a) (constraints p).

(** The best of a list of candidate schedules: the first feasible candidate
    whose objective no other feasible candidate exceeds. *)
Fixpoint best_candidate (vs : list LpVariable) (p : LpProblem) (cands : list assignment)
    : option assignment :=
  match cands with
  | [] => None
  | a :: cands' =>
      if feasibleb vs p a then
        match best_candidate vs p cands' with
        | Some a' =>
            if Qle_bool (objective_value p a') (objective_value p a) then Some a else Some a'
        | None => Some a
        end
      else best_candidate vs p cands'
  end.

(** A solver that searches a given list of candidate schedules.  Without a
    feasible candidate it reports [Infeasible] and leaves every variable at
    zero. *)
Definition candidate_solver (cands : list assignment) : Solver :=
  fun vs p =>
    match best_candidate vs p cands with
    | Some a => (LpStatusOptimal, fun v => Some (a v))
    | None => (LpStatusInfeasible, fun _ => Some 0)
    end.

(** ** A two-day scenario *)

(** A full battery (2 MWh in a store of 0 to 2 MWh, 2 MW each way, no
    losses), flat prices on the first day, and a cheap hour followed by a
    dear one at the start of the second day. *)
Definition two_day_prices : list Q := repeat 1 24 ++ [1; 3] ++ repeat 1 22.

Definition schedule_idle : assignment := fun _ => 0.

Definition schedule_discharge_first : assignment := fun v =>
  match v with
  | discharging_power_d_t 0 => 2
  | _ => 0
  end.

Definition schedule_charge_then_discharge : assignment := fun v =>
  match v with
  | charging_power_c_t 0 => 2
  | discharging_power_d_t 1 => 2
  | _ => 0
  end.

Definition scenario_solver : Solver :=
  candidate_solver [schedule_discharge_first; schedule_charge_then_discharge; schedule_idle].

(** The first day of the scenario, the state after it, and the second day:
    on the battery the loop reuses, and on a battery built anew and seeded
    with the level the first day ended at. *)
Definition scenario_start : SimState := start_state 24 2 2 2.

Definition scenario_day1 : Battery :=
  day_battery two_day_prices 2 1 1 100 24 0 0 scenario_start.

Definition scenario_state1 : SimState :=
  day_step scenario_solver scenario_day1 1 1 scenario_start.

Definition scenario_day2 : Battery :=
  day_battery two_day_prices 2 1 1 100 24 0 1 scenario_state1.

Definition scenario_fresh2 : Battery :=
  day_battery (skipn 24 two_day_prices) 2 1 1 100 24 0 0
    (start_state 24 2 2 (initial_level scenario_state1)).

(** ** Reading the outputs of a run *)

(** The number at position [i] of an array read back from the variables. *)
Definition entry (l : list (option Q)) (i : nat) : Q :=
  match l !! i with
  | Some (Some q) => q
  | _ => 0
  end.


(** The warnings printed, in order. *)
Fixpoint warnings (log : list Event) : list string :=
  match log with
  | [] => []
  | Print_warning st :: log' => st :: warnings log'
  | _ :: log' => warnings log'
  end.

(** The bounds [Battery.__init__] puts on the variables of the first [H]
    hours. *)
Definition within_power (a : assignment) (H : nat) (maxD maxC : Q) : Prop :=
  forall i, (i < H)%nat ->
    (0 <= a (charging_power_c_t i) /\ a (charging_power_c_t i) <= maxC) /\
    (0 <= a (discharging_power_d_t i) /\ a (discharging_power_d_t i) <= maxD).

(** What a day of the loop does after [solve_model]: collect the values,
    derive the trajectory, append the outputs and hand the level on. *)
Definition finish_day (b4 : Battery) (efficiency discharge_efficiency : Q) (s : SimState)
    : result SimState :=
  out ← collect_output b4;
  let hourly_charges := fst out in
  let hourly_discharges := snd out in
  daily_discharge_throughput ← py_sum hourly_discharges;
  charged ← np_scale hourly_charges efficiency;
  discharged ← np_scale hourly_discharges discharge_efficiency;
  let state_of_energy_from_t2 :=
    np_add_scalar (initial_level s) (np_cumsum (np_sub charged discharged)) in
  next_level ← index_last state_of_energy_from_t2;
  Ok {| battery := b4;
        initial_level := next_level;
        all_hourly_charges := all_hourly_charges s ++ hourly_charges;
        all_hourly_discharges := all_hourly_discharges s ++ hourly_discharges;
        all_hourly_state_of_energy :=
          all_hourly_state_of_energy s ++ state_of_energy_from_t2;
        all_daily_discharge_throughput :=
          all_daily_discharge_throughput s ++ [daily_discharge_throughput] |}.

(** The limits of the installation on the outputs of a run: every hourly
    state of energy within the capacities, every hourly charge and discharge
    a number within the power capacities, every daily throughput within its
    cap. *)
Definition within_limits (min_capacity discharge_energy_capacity maxD maxC
    max_daily_discharged_throughput : Q) (s : SimState) : Prop :=
  Forall (fun x => min_capacity <= x /\ x <= discharge_energy_capacity)
    (all_hourly_state_of_energy s) /\
  Forall (fun o => exists q, o = Some q /\ 0 <= q /\ q <= maxC) (all_hourly_charges s) /\
  Forall (fun o => exists q, o = Some q /\ 0 <= q /\ q <= maxD) (all_hourly_discharges s) /\
  Forall (fun x => x <= max_daily_discharged_throughput) (all_daily_discharge_throughput s).

(** A solver that only ever proposes to leave the battery idle. *)
Definition idle_solver : Solver := candidate_solver [schedule_idle].

(** Whether the solver left a number in each variable of the first 24 hours. *)
Definition all_bound (vals : VarName -> option Q) : bool :=
  forallb (fun i => match vals (charging_power_c_t i), vals (discharging_power_d_t i) with
                    | Some _, Some _ => true
                    | _, _ => false
                    end) (seq 0 24).

(** A solver that gives up: no status of success and no values. *)
Definition silent_solver : Solver := fun _ _ => (LpStatusNotSolved, fun _ => None).

(** The books of a run balance: the hourly outputs have one length; each
    state of energy is the level [L0] the run began with plus all the net
    flows up to the end of its hour; the level handed to the next day is
    [L0] plus all the net flows so far; the daily throughputs add up to the
    hourly discharges. *)
Definition balanced (L0 efficiency discharge_efficiency : Q) (s : SimState) : Prop :=
  let net i := entry (all_hourly_charges s) i * efficiency
               - entry (all_hourly_discharges s) i * discharge_efficiency in
  let n := length (all_hourly_state_of_energy s) in
  length (all_hourly_charges s) = n /\
  length (all_hourly_discharges s) = n /\
  (forall j, (j < n)%nat ->
     nth j (all_hourly_state_of_energy s) 0 == L0 + sum_upto (S j) net) /\
  initial_level s == L0 + sum_upto n net /\
  fold_left Qplus (all_daily_discharge_throughput s) 0
  == sum_upto n (entry (all_hourly_discharges s)).

(** ** Classes of exceptions and a solver that gives up *)

(** The name of the class of an exception, [type(e).__name__]. *)
Definition class_name (e : PyError) : string :=
  match e with
  | AssertionError _ => "AssertionError"
  | KeyError _ _ => "KeyError"
  | IndexError => "IndexError"
  | TypeError => "TypeError"
  end.

(** A solver that searches a given list of candidate schedules and, without
    a feasible candidate, reports [Infeasible] and leaves every variable
    unbound. *)
Definition giving_up_solver (cands : list assignment) : Solver :=
  fun vs p =>
    match best_candidate vs p cands with
    | Some a => (LpStatusOptimal, fun v => Some (a v))
    | None => (LpStatusInfeasible, fun _ => None)
    end.

(** * Properties *)

(** ** The code on small inputs *)

Example np_cumsum_example : np_cumsum [1; 2; 3] = [1; 3; 6].
Proof. reflexivity. Qed.

Example py_sum_example : py_sum [Some 1; Some 2; Some 3] = Ok 6.
Proof. reflexivity. Qed.

Example py_sum_unbound_example : py_sum [Some 1; None; Some 3] = Raise TypeError.
Proof. reflexivity. Qed.

Example day_trajectory_example :
  map Qred (day_trajectory 4 (86 # 100) (86 # 100) [10; 0; 0] [0; 5; 5])
  = [63 # 5; 83 # 10; 4].
Proof. reflexivity. Qed.

Example data_for_this_day_example :
  data_for_this_day (map inject_Z [0; 1; 2; 3; 4; 5; 6; 7; 8; 9; 10; 11; 12; 13; 14; 15; 16;
                                   17; 18; 19; 20; 21; 22; 23; 24; 25; 26]%Z) 1 2
  = [24; 25].
Proof. reflexivity. Qed.

Example set_objective_example :
  (fun b => objective (model b)) <$> set_objective (Battery_init 2 1 1) [30; 50]
  = Ok (Some {| terms := [(charging_power_c_t 0, -30); (charging_power_c_t 1, -50);
                          (discharging_power_d_t 0, 30); (discharging_power_d_t 1, 50)];
                constant := 0 |}).
Proof. reflexivity. Qed.

Example set_objective_short_example :
  set_objective (Battery_init 2 1 1) [30]
  = Raise (AssertionError "Error: need one price for each hour in time horizon").
Proof. reflexivity. Qed.

Example add_storage_constraints_example :
  (fun b => constraints (model b)) <$> add_storage_constraints (Battery_init 2 1 1) 1 0 5 1 1
  = Ok [ {| expr := {| terms := [(charging_power_c_t 0, 1); (discharging_power_d_t 0, -1)];
                       constant := 1 |};
            sense := LpConstraintGE |};
         {| expr := {| terms := [(charging_power_c_t 0, 1); (charging_power_c_t 1, 1);
                                 (discharging_power_d_t 0, -1); (discharging_power_d_t 1, -1)];
                       constant := 1 |};
            sense := LpConstraintGE |};
         {| expr := {| terms := [(charging_power_c_t 0, 1); (discharging_power_d_t 0, -1)];
                       constant := -4 |};
            sense := LpConstraintLE |};
         {| expr := {| terms := [(charging_power_c_t 0, 1); (charging_power_c_t 1, 1);
                                 (discharging_power_d_t 0, -1); (discharging_power_d_t 1, -1)];
                       constant := -4 |};
            sense := LpConstraintLE |} ].
Proof. reflexivity. Qed.

Example collect_output_short_example :
  collect_output (Battery_init 2 1 1) = Raise (KeyError "c_t" 2).
Proof. reflexivity. Qed.

Example scenario_example :
  snd (simulate_battery scenario_solver 2 two_day_prices 2 2 2 1 1 100 24%nat None 0 [])
  = Ok (repeat (Some 0) 24, Some 2 :: repeat (Some 0) 23, repeat 0 24, [2]).
Proof. vm_compute. reflexivity. Qed.

(** ** Dictionaries of variables *)

Lemma LpVariable_dicts_lookup mk n low up c i :
  LpVariable_dicts mk (seq 0 n) low up c !! i =
  if decide (i < n)%nat
  then Some {| name := mk i; lowBound := low; upBound := up; cat := c; varValue := None |}
  else None.
Proof.
  unfold LpVariable_dicts. induction n as [|n IH].
  - cbn [seq map]. rewrite list_to_map_nil, lookup_empty.
    destruct (decide (i < 0)%nat); [lia | reflexivity].
  - rewrite seq_S, map_app, list_to_map_app, lookup_union, IH.
    cbn [Nat.add map]. rewrite list_to_map_cons, list_to_map_nil.
    destruct (decide (i = n)) as [->|Hne].
    + rewrite lookup_insert_eq.
      destruct (decide (n < n)%nat), (decide (n < S n)%nat); try lia. reflexivity.
    + rewrite lookup_insert_ne, lookup_empty by congruence.
      destruct (decide (i < n)%nat), (decide (i < S n)%nat); try lia; reflexivity.
Qed.

Lemma Battery_init_wf H maxD maxC : wf_battery H maxD maxC (Battery_init H maxD maxC).
Proof.
  split; simpl; intros; try reflexivity; rewrite LpVariable_dicts_lookup;
    destruct (decide _); try lia; eauto.
Qed.

Lemma set_model_wf H maxD maxC b m :
  wf_battery H maxD maxC b -> wf_battery H maxD maxC (set_model b m).
Proof. intros Hwf. destruct Hwf. split; simpl; assumption. Qed.

Lemma assign_values_lookup vals d i :
  assign_values vals d !! i =
  (fun v => {| name := name v; lowBound := lowBound v; upBound := upBound v;
               cat := cat v; varValue := vals (name v) |}) <$> (d !! i).
Proof. unfold assign_values. apply lookup_fmap. Qed.

(** ** Comprehensions and loops that do not raise *)

Lemma comprehension_Ok {A B} (f : A -> result B) (g : A -> B) (l : list A) :
  (forall x, In x l -> f x = Ok (g x)) -> comprehension f l = Ok (map g l).
Proof.
  induction l as [|x l IH]; intros Hf; simpl.
  - reflexivity.
  - rewrite (Hf x) by (left; reflexivity). simpl.
    rewrite IH by (intros y Hy; apply Hf; right; exact Hy). reflexivity.
Qed.

Lemma comprehension_length {A B} (f : A -> result B) (l : list A) (ys : list B) :
  comprehension f l = Ok ys -> length ys = length l.
Proof.
  revert ys. induction l as [|x l IH]; intros ys; simpl.
  - intros [= <-]. reflexivity.
  - destruct (f x) as [y|e]; simpl; [|discriminate].
    destruct (comprehension f l) as [ys'|e]; simpl; [|discriminate].
    intros [= <-]. simpl. f_equal. apply IH. reflexivity.
Qed.

Lemma for_in_Ok {S A} (body : A -> S -> result S) (step : A -> S -> S)
    (P : S -> Prop) (l : list A) (s : S) :
  (forall x s, In x l -> P s -> body x s = Ok (step x s) /\ P (step x s)) ->
  P s ->
  for_in l body s = Ok (fold_left (fun s x => step x s) l s) /\
  P (fold_left (fun s x => step x s) l s).
Proof.
  revert s. induction l as [|x l IH]; intros s Hb Hs; simpl.
  - split; [reflexivity | exact Hs].
  - destruct (Hb x s) as [-> Hs']; [left; reflexivity | exact Hs |]. simpl.
    apply IH; [|exact Hs']. intros y s0 Hy. apply Hb. right. exact Hy.
Qed.

(** ** Dictionary lookups on a well-formed battery *)

Section WellFormed.

Context {H : nat} {maxD maxC : Q} {b : Battery}.
Hypothesis Hwf : wf_battery H maxD maxC b.

Lemma getitem_charge key i :
  (i < H)%nat ->
  exists v, getitem key (charge b) i = Ok v /\ name v = charging_power_c_t i.
Proof.
  intros Hi. destruct (wf_charge _ _ _ _ Hwf i Hi) as (v & Hv & Hn & _).
  exists v. unfold getitem. rewrite Hv. auto.
Qed.

Lemma getitem_discharge key i :
  (i < H)%nat ->
  exists v, getitem key (discharge b) i = Ok v /\ name v = discharging_power_d_t i.
Proof.
  intros Hi. destruct (wf_discharge _ _ _ _ Hwf i Hi) as (v & Hv & Hn & _).
  exists v. unfold getitem. rewrite Hv. auto.
Qed.

Lemma getitem_charge_out key i :
  (H <= i)%nat -> getitem key (charge b) i = Raise (KeyError key i).
Proof. intros Hi. unfold getitem. rewrite (wf_charge_out _ _ _ _ Hwf i Hi). reflexivity. Qed.

Lemma charge_pairs key (w : nat -> Q) k :
  (k <= H)%nat ->
  comprehension (fun i => v ← getitem key (charge b) i; Ok (name v, w i)) (seq 0 k)
  = Ok (map (fun i => (charging_power_c_t i, w i)) (seq 0 k)).
Proof.
  intros Hk. apply comprehension_Ok. intros i Hi. apply in_seq in Hi.
  destruct (getitem_charge key i) as (v & -> & Hn); [lia|]. simpl. rewrite Hn. reflexivity.
Qed.

Lemma discharge_pairs key (w : nat -> Q) k :
  (k <= H)%nat ->
  comprehension (fun i => v ← getitem key (discharge b) i; Ok (name v, w i)) (seq 0 k)
  = Ok (map (fun i => (discharging_power_d_t i, w i)) (seq 0 k)).
Proof.
  intros Hk. apply comprehension_Ok. intros i Hi. apply in_seq in Hi.
  destruct (getitem_discharge key i) as (v & -> & Hn); [lia|]. simpl. rewrite Hn. reflexivity.
Qed.

Lemma storage_level_wf efficiency discharge_efficiency initial_level k :
  (k <= H)%nat ->
  storage_level b efficiency discharge_efficiency initial_level k
  = Ok (storage_expression efficiency discharge_efficiency initial_level k).
Proof.
  intros Hk. unfold storage_level.
  rewrite (charge_pairs "c_t" (fun _ => efficiency) k Hk). simpl.
  rewrite (discharge_pairs "d_t" (fun _ => discharge_efficiency) k Hk). reflexivity.
Qed.

End WellFormed.

Lemma index_nth (l : list Q) i : (i < length l)%nat -> index l i = Ok (nth i l 0).
Proof.
  intros Hi. unfold index. destruct (lookup_lt_is_Some_2 l i Hi) as [x Hx].
  rewrite Hx. f_equal. symmetry. apply nth_lookup_Some with (d := 0) in Hx. exact Hx.
Qed.

(** ** [set_objective] *)

Lemma set_objective_wf H maxD maxC b prices :
  wf_battery H maxD maxC b -> length prices = H ->
  set_objective b prices
  = Ok (set_model b (LpProblem_iadd_objective (model b) (objective_expression prices H))).
Proof.
  intros Hwf Hlen.
  assert (Hcs : comprehension
            (fun i => v ← getitem "c_t" (charge b) i;
                      p ← index prices i; Ok (name v, (-1 # 1) * p)) (seq 0 H)
          = Ok (map (fun i => (charging_power_c_t i, (-1 # 1) * nth i prices 0)) (seq 0 H))).
  { apply comprehension_Ok. intros i Hi. apply in_seq in Hi.
    destruct (getitem_charge Hwf "c_t" i) as (v & -> & Hn); [lia|]. simpl.
    rewrite index_nth by lia. simpl. rewrite Hn. reflexivity. }
  assert (Hds : comprehension
            (fun i => v ← getitem "d_t" (discharge b) i;
                      p ← index prices i; Ok (name v, p)) (seq 0 H)
          = Ok (map (fun i => (discharging_power_d_t i, nth i prices 0)) (seq 0 H))).
  { apply comprehension_Ok. intros i Hi. apply in_seq in Hi.
    destruct (getitem_discharge Hwf "d_t" i) as (v & -> & Hn); [lia|]. simpl.
    rewrite index_nth by lia. simpl. rewrite Hn. reflexivity. }
  unfold set_objective.
  rewrite (wf_horizon _ _ _ _ Hwf), Hlen, Nat.eqb_refl, Hcs. simpl. rewrite Hds.
  reflexivity.
Qed.

Lemma set_objective_mismatch b prices :
  length prices <> time_horizon b ->
  set_objective b prices
  = Raise (AssertionError "Error: need one price for each hour in time horizon").
Proof.
  intros Hlen. unfold set_objective.
  destruct (Nat.eqb_spec (length prices) (time_horizon b)); [contradiction | reflexivity].
Qed.

(** ** [add_storage_constraints] and [add_throughput_constraints] *)

Lemma fold_add_constraint (f : nat -> LpConstraint) (l : list nat) (b : Battery) :
  fold_left (fun s k => set_model s (LpProblem_iadd_constraint (model s) (f k))) l b
  = set_model b (add_constraints (model b) (map f l)).
Proof.
  revert b. induction l as [|k l IH]; intros b; simpl.
  - destruct b as [h c d [se o cs st]]. unfold set_model, add_constraints. simpl.
    rewrite app_nil_r. reflexivity.
  - rewrite IH. unfold set_model, add_constraints, LpProblem_iadd_constraint. simpl.
    rewrite <- app_assoc. reflexivity.
Qed.

Lemma add_constraint_loop_wf H maxD maxC b (f : nat -> LpConstraint)
    (body : nat -> Battery -> result Battery) :
  wf_battery H maxD maxC b ->
  (forall k s, (1 <= k <= H)%nat -> wf_battery H maxD maxC s ->
     body k s = Ok (set_model s (LpProblem_iadd_constraint (model s) (f k)))) ->
  for_in (seq 1 H) body b = Ok (set_model b (add_constraints (model b) (map f (seq 1 H)))).
Proof.
  intros Hwf Hbody.
  destruct (for_in_Ok body
              (fun k s => set_model s (LpProblem_iadd_constraint (model s) (f k)))
              (wf_battery H maxD maxC) (seq 1 H) b) as [Heq _].
  - intros k s Hk Hs. apply in_seq in Hk. split.
    + apply Hbody; [lia | exact Hs].
    + apply set_model_wf. exact Hs.
  - exact Hwf.
  - rewrite Heq, fold_add_constraint. reflexivity.
Qed.

Lemma add_storage_constraints_wf H maxD maxC b
    efficiency min_capacity discharge_energy_capacity discharge_efficiency initial_level :
  wf_battery H maxD maxC b ->
  add_storage_constraints b efficiency min_capacity discharge_energy_capacity
    discharge_efficiency initial_level
  = Ok (set_model b
          (add_constraints (model b)
             (storage_constraints H efficiency min_capacity discharge_energy_capacity
                discharge_efficiency initial_level))).
Proof.
  intros Hwf. unfold add_storage_constraints.
  rewrite (wf_horizon _ _ _ _ Hwf).
  erewrite (add_constraint_loop_wf H maxD maxC b
              (storage_lower efficiency discharge_efficiency initial_level min_capacity));
    [| exact Hwf
     | intros k s Hk Hs; rewrite (storage_level_wf Hs) by lia; reflexivity].
  cbn [mbind result_bind]. cbn [time_horizon set_model].
  rewrite (wf_horizon _ _ _ _ Hwf).
  erewrite (add_constraint_loop_wf H maxD maxC _
              (storage_upper efficiency discharge_efficiency initial_level
                 discharge_energy_capacity));
    [| apply set_model_wf; exact Hwf
     | intros k s Hk Hs; rewrite (storage_level_wf Hs) by lia; reflexivity].
  unfold set_model, add_constraints, storage_constraints. simpl.
  rewrite <- app_assoc. reflexivity.
Qed.

Lemma add_throughput_constraints_wf H maxD maxC b max_daily_discharged_throughput :
  wf_battery H maxD maxC b ->
  add_throughput_constraints b max_daily_discharged_throughput
  = Ok (set_model b
          (add_constraints (model b)
             [throughput_constraint H max_daily_discharged_throughput])).
Proof.
  intros Hwf. unfold add_throughput_constraints.
  rewrite (wf_horizon _ _ _ _ Hwf).
  assert (Hvs : exists vs,
             comprehension (fun i => getitem "d_t" (discharge b) i) (seq 0 H) = Ok vs /\
             map (fun v => (name v, 1)) vs
             = map (fun i => (discharging_power_d_t i, 1)) (seq 0 H)).
  { assert (Hall : forall k, (k <= H)%nat -> exists vs,
               comprehension (fun i => getitem "d_t" (discharge b) i) (seq 0 k) = Ok vs /\
               map (fun v => (name v, 1)) vs
               = map (fun i => (discharging_power_d_t i, 1)) (seq 0 k)).
    { induction k as [|k IH]; intros Hk.
      - exists []. split; reflexivity.
      - destruct IH as (vs & Hvs & Hmap); [lia|].
        destruct (getitem_discharge Hwf "d_t" k) as (v & Hv & Hn); [lia|].
        exists (vs ++ [v]). rewrite seq_S. simpl. split.
        + clear Hmap. revert vs Hvs. generalize (seq 0 k). intros l.
          induction l as [|x l IHl]; intros vs; simpl.
          * intros [= <-]. rewrite Hv. reflexivity.
          * destruct (getitem "d_t" (discharge b) x); simpl; [|discriminate].
            destruct (comprehension _ l) as [ys|]; simpl; [|discriminate].
            intros [= <-]. rewrite (IHl ys eq_refl). reflexivity.
        + rewrite !map_app, Hmap. simpl. rewrite Hn. reflexivity. }
    apply Hall. lia. }
  destruct Hvs as (vs & -> & Hmap). simpl.
  unfold lpSum, throughput_constraint, add_constraints, LpProblem_iadd_constraint.
  rewrite Hmap. reflexivity.
Qed.

(** ** Values of the attached expressions *)

Lemma sum_upto_ext n (f g : nat -> Q) :
  (forall i, (i < n)%nat -> f i == g i) -> sum_upto n f == sum_upto n g.
Proof.
  induction n as [|n IH]; intros Hfg; simpl.
  - reflexivity.
  - rewrite IH, (Hfg n) by (intros; try apply Hfg; lia). reflexivity.
Qed.

Lemma sum_upto_plus n (f g : nat -> Q) :
  sum_upto n (fun i => f i + g i) == sum_upto n f + sum_upto n g.
Proof. induction n as [|n IH]; simpl; [|rewrite IH]; ring. Qed.

Lemma sum_upto_minus n (f g : nat -> Q) :
  sum_upto n (fun i => f i - g i) == sum_upto n f - sum_upto n g.
Proof. induction n as [|n IH]; simpl; [|rewrite IH]; ring. Qed.

Lemma eval_terms_app a l1 l2 :
  eval_terms a (l1 ++ l2) == eval_terms a l1 + eval_terms a l2.
Proof.
  induction l1 as [|[v c] l1 IH]; simpl; [|rewrite IH]; ring.
Qed.

Lemma eval_terms_neg a l : eval_terms a (affine_neg_terms l) == - eval_terms a l.
Proof.
  induction l as [|[v c] l IH]; simpl; [|rewrite IH]; ring.
Qed.

Lemma eval_terms_seq a (f : nat -> VarName) (w : nat -> Q) k :
  eval_terms a (map (fun i => (f i, w i)) (seq 0 k)) == sum_upto k (fun i => w i * a (f i)).
Proof.
  induction k as [|k IH].
  - reflexivity.
  - rewrite seq_S, map_app, eval_terms_app, IH. simpl. ring.
Qed.

Lemma eval_storage_expression a efficiency discharge_efficiency initial_level k :
  eval a (storage_expression efficiency discharge_efficiency initial_level k)
  == state_of_energy a efficiency discharge_efficiency initial_level k.
Proof.
  unfold eval, storage_expression, state_of_energy. simpl.
  rewrite eval_terms_app, eval_terms_neg.
  rewrite (eval_terms_seq a charging_power_c_t (fun _ => efficiency)).
  rewrite (eval_terms_seq a discharging_power_d_t (fun _ => discharge_efficiency)).
  rewrite sum_upto_minus.
  rewrite (sum_upto_ext k (fun i => a (charging_power_c_t i) * efficiency)
             (fun i => efficiency * a (charging_power_c_t i))) by (intros; ring).
  rewrite (sum_upto_ext k (fun i => a (discharging_power_d_t i) * discharge_efficiency)
             (fun i => discharge_efficiency * a (discharging_power_d_t i))) by (intros; ring).
  ring.
Qed.

Lemma eval_objective_expression a prices H :
  eval a (objective_expression prices H) == profit a prices H.
Proof.
  unfold eval, objective_expression, profit. simpl.
  rewrite eval_terms_app.
  rewrite (eval_terms_seq a charging_power_c_t (fun i => (-1 # 1) * nth i prices 0)).
  rewrite (eval_terms_seq a discharging_power_d_t (fun i => nth i prices 0)).
  rewrite sum_upto_minus.
  rewrite (sum_upto_ext H (fun i => (-1 # 1) * nth i prices 0 * a (charging_power_c_t i))
             (fun i => 0 - a (charging_power_c_t i) * nth i prices 0)) by (intros; ring).
  rewrite sum_upto_minus.
  rewrite (sum_upto_ext H (fun i => nth i prices 0 * a (discharging_power_d_t i))
             (fun i => a (discharging_power_d_t i) * nth i prices 0)) by (intros; ring).
  assert (Hz : sum_upto H (fun _ => 0) == 0).
  { clear. induction H as [|n IH]; simpl; [|rewrite IH]; ring. }
  rewrite Hz. ring.
Qed.

Lemma holds_storage_lower a efficiency discharge_efficiency initial_level min_capacity k :
  holds a (storage_lower efficiency discharge_efficiency initial_level min_capacity k) <->
  min_capacity <= state_of_energy a efficiency discharge_efficiency initial_level k.
Proof.
  unfold holds, storage_lower, affine_ge. cbn [sense expr].
  rewrite <- eval_storage_expression. unfold eval, affine_sub_const. cbn [terms constant].
  split; intros Hh; lra.
Qed.

Lemma holds_storage_upper a efficiency discharge_efficiency initial_level
    discharge_energy_capacity k :
  holds a (storage_upper efficiency discharge_efficiency initial_level
             discharge_energy_capacity k) <->
  state_of_energy a efficiency discharge_efficiency initial_level k
  <= discharge_energy_capacity.
Proof.
  unfold holds, storage_upper, affine_le. cbn [sense expr].
  rewrite <- eval_storage_expression. unfold eval, affine_sub_const. cbn [terms constant].
  split; intros Hh; lra.
Qed.

Lemma holds_throughput_constraint a H max_daily_discharged_throughput :
  holds a (throughput_constraint H max_daily_discharged_throughput) <->
  sum_upto H (fun i => a (discharging_power_d_t i)) <= max_daily_discharged_throughput.
Proof.
  unfold holds, throughput_constraint, affine_le, eval, affine_sub_const, affine_of_pairs.
  cbn [sense expr terms constant].
  rewrite (eval_terms_seq a discharging_power_d_t (fun _ => 1)).
  rewrite (sum_upto_ext H (fun i => 1 * a (discharging_power_d_t i))
             (fun i => a (discharging_power_d_t i))) by (intros; ring).
  split; intros Hh; lra.
Qed.

Lemma Forall_holds_storage_constraints a H
    efficiency min_capacity discharge_energy_capacity discharge_efficiency initial_level :
  Forall (holds a)
    (storage_constraints H efficiency min_capacity discharge_energy_capacity
       discharge_efficiency initial_level) <->
  forall k, (1 <= k <= H)%nat ->
    min_capacity <= state_of_energy a efficiency discharge_efficiency initial_level k /\
    state_of_energy a efficiency discharge_efficiency initial_level k
    <= discharge_energy_capacity.
Proof.
  unfold storage_constraints. rewrite Forall_app, !Forall_forall. split.
  - intros [Hlo Hup] k Hk. split.
    + apply holds_storage_lower, Hlo, list_elem_of_In, in_map, in_seq. lia.
    + apply holds_storage_upper, Hup, list_elem_of_In, in_map, in_seq. lia.
  - intros Hk. split; intros c Hc; apply list_elem_of_In, in_map_iff in Hc;
      destruct Hc as (k & <- & Hin); apply in_seq in Hin.
    + apply holds_storage_lower, Hk. lia.
    + apply holds_storage_upper, Hk. lia.
Qed.

(** ** [solve_model] and [collect_output] *)

Lemma solve_model_run solver b log :
  solve_model solver b log
  = (log ++ Solver_call (battery_variables b) (model b)
         :: warning (fst (solver (battery_variables b) (model b))),
     Ok (solved solver b)).
Proof.
  unfold solve_model, solved, emit, mbind, Sim_bind, mret, Sim_ret.
  destruct (solver (battery_variables b) (model b)) as [st vals]. simpl.
  destruct st; simpl; rewrite <- ?app_assoc; reflexivity.
Qed.

Lemma solved_wf solver H maxD maxC b :
  wf_battery H maxD maxC b -> wf_battery H maxD maxC (solved solver b).
Proof.
  intros Hwf. destruct Hwf as [Hh Hc Hco Hd Hdo].
  split; simpl; [exact Hh | | | |]; intros i Hi; rewrite assign_values_lookup.
  - destruct (Hc i Hi) as (v & -> & Hn & Hl & Hu). simpl. eauto 6.
  - rewrite (Hco i Hi). reflexivity.
  - destruct (Hd i Hi) as (v & -> & Hn & Hl & Hu). simpl. eauto 6.
  - rewrite (Hdo i Hi). reflexivity.
Qed.

Lemma solved_charge_value solver H maxD maxC b i :
  wf_battery H maxD maxC b -> (i < H)%nat ->
  exists v, charge (solved solver b) !! i = Some v /\
            varValue v = snd (solver (battery_variables b) (model b)) (charging_power_c_t i).
Proof.
  intros Hwf Hi. destruct (wf_charge _ _ _ _ Hwf i Hi) as (v & Hv & Hn & _).
  simpl. rewrite assign_values_lookup, Hv. simpl. rewrite Hn. eauto.
Qed.

Lemma solved_discharge_value solver H maxD maxC b i :
  wf_battery H maxD maxC b -> (i < H)%nat ->
  exists v, discharge (solved solver b) !! i = Some v /\
            varValue v = snd (solver (battery_variables b) (model b)) (discharging_power_d_t i).
Proof.
  intros Hwf Hi. destruct (wf_discharge _ _ _ _ Hwf i Hi) as (v & Hv & Hn & _).
  simpl. rewrite assign_values_lookup, Hv. simpl. rewrite Hn. eauto.
Qed.

Lemma collect_output_wf H maxD maxC b :
  wf_battery H maxD maxC b -> (24 <= H)%nat ->
  collect_output b
  = Ok (map (value_at (charge b)) (seq 0 24), map (value_at (discharge b)) (seq 0 24)).
Proof.
  intros Hwf HH.
  assert (Hcs : comprehension (fun i => v ← getitem "c_t" (charge b) i; Ok (varValue v))
                  (seq 0 24) = Ok (map (value_at (charge b)) (seq 0 24))).
  { apply comprehension_Ok. intros i Hi. apply in_seq in Hi.
    destruct (wf_charge _ _ _ _ Hwf i) as (v & Hv & _); [lia|].
    unfold getitem, value_at. rewrite Hv. reflexivity. }
  assert (Hds : comprehension (fun i => v ← getitem "d_t" (discharge b) i; Ok (varValue v))
                  (seq 0 24) = Ok (map (value_at (discharge b)) (seq 0 24))).
  { apply comprehension_Ok. intros i Hi. apply in_seq in Hi.
    destruct (wf_discharge _ _ _ _ Hwf i) as (v & Hv & _); [lia|].
    unfold getitem, value_at. rewrite Hv. reflexivity. }
  unfold collect_output. rewrite Hcs. cbn [mbind result_bind]. rewrite Hds. reflexivity.
Qed.

Lemma comprehension_Raise {A B} (f : A -> result B) (l1 l2 : list A) (x : A) (e : PyError) :
  (forall y, In y l1 -> is_Ok (f y)) -> f x = Raise e ->
  comprehension f (l1 ++ x :: l2) = Raise e.
Proof.
  intros Hl1 Hx. induction l1 as [|y l1 IH]; simpl.
  - rewrite Hx. reflexivity.
  - pose proof (Hl1 y (or_introl eq_refl)) as Hy.
    destruct (f y) as [z|]; [|contradiction]. simpl.
    rewrite IH by (intros; apply Hl1; right; assumption). reflexivity.
Qed.

Lemma collect_output_short H maxD maxC b :
  wf_battery H maxD maxC b -> (H < 24)%nat ->
  collect_output b = Raise (KeyError "c_t" H).
Proof.
  intros Hwf HH.
  assert (Hcs : comprehension (fun i => v ← getitem "c_t" (charge b) i; Ok (varValue v))
                  (seq 0 24) = Raise (KeyError "c_t" H)).
  { replace (seq 0 24) with (seq 0 H ++ H :: seq (S H) (24 - S H)).
    2:{ change (H :: seq (S H) (24 - S H)) with (seq H (S (24 - S H))).
        rewrite <- seq_app. f_equal. lia. }
    apply comprehension_Raise.
    - intros i Hi. apply in_seq in Hi.
      destruct (wf_charge _ _ _ _ Hwf i) as (v & Hv & _); [lia|].
      unfold getitem. rewrite Hv. exact I.
    - unfold getitem. rewrite (wf_charge_out _ _ _ _ Hwf H) by lia. reflexivity. }
  unfold collect_output. rewrite Hcs. reflexivity.
Qed.

(** ** Array arithmetic *)

Lemma for_in_sum_Some (l : list Q) (acc : Q) :
  for_in (map Some l) (fun x acc => q ← number x; Ok (acc + q)) acc
  = Ok (fold_left Qplus l acc).
Proof.
  revert acc. induction l as [|x l IH]; intros acc; simpl; [reflexivity | apply IH].
Qed.

Lemma py_sum_None l : py_sum (None :: l) = Raise TypeError.
Proof. reflexivity. Qed.

Lemma py_sum_Some (l : list Q) : py_sum (map Some l) = Ok (fold_left Qplus l 0).
Proof. apply for_in_sum_Some. Qed.

Lemma np_scale_Some (l : list Q) (c : Q) :
  np_scale (map Some l) c = Ok (map (fun q => q * c) l).
Proof.
  unfold np_scale. induction l as [|x l IH]; simpl; [reflexivity|].
  rewrite IH. reflexivity.
Qed.

Lemma np_sub_length l1 l2 : length (np_sub l1 l2) = Nat.min (length l1) (length l2).
Proof.
  revert l2. induction l1 as [|x l1 IH]; intros [|y l2]; simpl; try reflexivity.
  rewrite IH. reflexivity.
Qed.

Lemma cumsum_from_length acc l : length (cumsum_from acc l) = length l.
Proof.
  revert acc. induction l as [|x l IH]; intros acc; simpl; [reflexivity|].
  rewrite IH. reflexivity.
Qed.

Lemma np_cumsum_length l : length (np_cumsum l) = length l.
Proof. destruct l; simpl; [reflexivity|]. rewrite cumsum_from_length. reflexivity. Qed.

Lemma day_values_length vals mk : length (day_values vals mk) = 24%nat.
Proof. unfold day_values. rewrite length_map, length_seq. reflexivity. Qed.

Lemma day_trajectory_length initial_level efficiency discharge_efficiency cv dv :
  length (day_trajectory initial_level efficiency discharge_efficiency cv dv)
  = Nat.min (length cv) (length dv).
Proof.
  unfold day_trajectory, np_add_scalar.
  rewrite length_map, np_cumsum_length, np_sub_length, !length_map. reflexivity.
Qed.

Lemma last_nonempty {A} (l : list A) : (0 < length l)%nat -> exists x, last l = Some x.
Proof.
  intros Hl. destruct (last l) as [x|] eqn:Hlast; [eauto|].
  apply last_None in Hlast. subst l. simpl in Hl. lia.
Qed.

Lemma data_for_this_day_length price_data day_count H :
  (24 * day_count + H <= length price_data)%nat ->
  length (data_for_this_day price_data day_count H) = H.
Proof.
  intros Hlen. unfold data_for_this_day. rewrite length_take, length_drop. lia.
Qed.

(** ** One day of the simulation *)

Lemma collected_values solver H maxD maxC b :
  solver_binds solver -> wf_battery H maxD maxC b -> (24 <= H)%nat ->
  collect_output (solved solver b)
  = Ok (map Some (day_values (snd (solver (battery_variables b) (model b))) charging_power_c_t),
        map Some (day_values (snd (solver (battery_variables b) (model b)))
                    discharging_power_d_t)).
Proof.
  intros Hb Hwf HH.
  rewrite (collect_output_wf H maxD maxC) by (try apply solved_wf; assumption).
  unfold day_values. rewrite !map_map. f_equal. apply (f_equal2 pair);
    apply map_ext_in; intros i Hi; apply in_seq in Hi; unfold value_at.
  - destruct (solved_charge_value solver H maxD maxC b i Hwf) as (v & -> & ->); [lia|].
    destruct (Hb (battery_variables b) (model b) (charging_power_c_t i)) as [q ->].
    reflexivity.
  - destruct (solved_discharge_value solver H maxD maxC b i Hwf) as (v & -> & ->); [lia|].
    destruct (Hb (battery_variables b) (model b) (discharging_power_d_t i)) as [q ->].
    reflexivity.
Qed.

Lemma simulate_day_ok solver price_data discharge_energy_capacity efficiency
    discharge_efficiency max_daily_discharged_throughput H min_capacity day_count s log
    maxD maxC :
  solver_binds solver ->
  wf_battery H maxD maxC (battery s) ->
  (24 <= H)%nat ->
  (24 * day_count + H <= length price_data)%nat ->
  let b3 := day_battery price_data discharge_energy_capacity efficiency discharge_efficiency
              max_daily_discharged_throughput H min_capacity day_count s in
  simulate_day solver price_data discharge_energy_capacity efficiency discharge_efficiency
    max_daily_discharged_throughput H min_capacity day_count s log
  = (log ++ day_events solver b3 day_count,
     Ok (day_step solver b3 efficiency discharge_efficiency s)).
Proof.
  intros Hb Hwf HH Hlen b3.
  assert (Hwf3 : wf_battery H maxD maxC b3) by (apply set_model_wf; exact Hwf).
  unfold simulate_day, mbind, Sim_bind, emit, lift, mret, Sim_ret.
  rewrite (set_objective_wf H maxD maxC) by
    (try apply data_for_this_day_length; assumption).
  rewrite (add_storage_constraints_wf H maxD maxC) by (apply set_model_wf; exact Hwf).
  rewrite (add_throughput_constraints_wf H maxD maxC) by (repeat apply set_model_wf; exact Hwf).
  change (set_model (set_model (set_model (battery s) _) _) _) with b3.
  rewrite solve_model_run.
  rewrite (collected_values solver H maxD maxC b3 Hb Hwf3 HH).
  cbn [fst snd]. rewrite py_sum_Some, !np_scale_Some.
  set (vals := snd (solver (battery_variables b3) (model b3))).
  change (np_add_scalar (initial_level s) _)
    with (day_trajectory (initial_level s) efficiency discharge_efficiency
            (day_values vals charging_power_c_t) (day_values vals discharging_power_d_t)).
  set (traj := day_trajectory _ _ _ _ _).
  destruct (last_nonempty traj) as [x Hx].
  { unfold traj. rewrite day_trajectory_length, !day_values_length. simpl. lia. }
  unfold index_last. rewrite Hx.
  unfold day_events, day_step. fold vals. fold traj. rewrite Hx. simpl.
  rewrite <- app_assoc. reflexivity.
Qed.

(** When the solver leaves the first discharge variable without a value, the
    day ends with a [TypeError], raised by [sum(hourly_discharges)]. *)
Lemma simulate_day_unbound solver price_data discharge_energy_capacity efficiency
    discharge_efficiency max_daily_discharged_throughput H min_capacity day_count s log
    maxD maxC :
  wf_battery H maxD maxC (battery s) ->
  (24 <= H)%nat ->
  (24 * day_count + H <= length price_data)%nat ->
  let b3 := day_battery price_data discharge_energy_capacity efficiency discharge_efficiency
              max_daily_discharged_throughput H min_capacity day_count s in
  snd (solver (battery_variables b3) (model b3)) (discharging_power_d_t 0) = None ->
  simulate_day solver price_data discharge_energy_capacity efficiency discharge_efficiency
    max_daily_discharged_throughput H min_capacity day_count s log
  = (log ++ day_events solver b3 day_count, Raise TypeError).
Proof.
  intros Hwf HH Hlen b3 Hnone.
  assert (Hwf3 : wf_battery H maxD maxC b3) by (apply set_model_wf; exact Hwf).
  unfold simulate_day, mbind, Sim_bind, emit, lift, mret, Sim_ret.
  rewrite (set_objective_wf H maxD maxC) by
    (try apply data_for_this_day_length; assumption).
  rewrite (add_storage_constraints_wf H maxD maxC) by (apply set_model_wf; exact Hwf).
  rewrite (add_throughput_constraints_wf H maxD maxC) by (repeat apply set_model_wf; exact Hwf).
  change (set_model (set_model (set_model (battery s) _) _) _) with b3.
  rewrite solve_model_run.
  rewrite (collect_output_wf H maxD maxC) by (try apply solved_wf; assumption).
  assert (Hz : value_at (discharge (solved solver b3)) 0 = None).
  { destruct (solved_discharge_value solver H maxD maxC b3 0 Hwf3) as (v & Hv & Hval); [lia|].
    unfold value_at. rewrite Hv, Hval. exact Hnone. }
  cbn [fst snd seq map]. rewrite Hz, py_sum_None.
  unfold day_events. rewrite <- app_assoc. reflexivity.
Qed.

(** ** The loop over the days *)

Lemma day_step_wf solver H maxD maxC b3 efficiency discharge_efficiency s :
  wf_battery H maxD maxC b3 ->
  wf_battery H maxD maxC (battery (day_step solver b3 efficiency discharge_efficiency s)).
Proof. intros Hwf. simpl. apply solved_wf. exact Hwf. Qed.

Lemma simulate_days_ok solver price_data discharge_energy_capacity efficiency
    discharge_efficiency max_daily_discharged_throughput H min_capacity maxD maxC days :
  solver_binds solver ->
  (24 <= H)%nat ->
  (forall d, In d days -> (24 * d + H <= length price_data)%nat) ->
  forall s log,
  wf_battery H maxD maxC (battery s) ->
  simulate_days
    (simulate_day solver price_data discharge_energy_capacity efficiency discharge_efficiency
       max_daily_discharged_throughput H min_capacity) days s log
  = (log ++ fst (run_days solver price_data discharge_energy_capacity efficiency
                   discharge_efficiency max_daily_discharged_throughput H min_capacity days s),
     Ok (snd (run_days solver price_data discharge_energy_capacity efficiency
                discharge_efficiency max_daily_discharged_throughput H min_capacity days s))).
Proof.
  intros Hb HH. induction days as [|d days IH]; intros Hdata s log Hwf.
  - simpl. unfold mret, Sim_ret. rewrite app_nil_r. reflexivity.
  - cbn [simulate_days run_days fst snd]. unfold mbind, Sim_bind.
    rewrite (simulate_day_ok _ _ _ _ _ _ _ _ _ _ _ maxD maxC) by
      (try assumption; apply Hdata; left; reflexivity).
    rewrite IH.
    + rewrite <- app_assoc. reflexivity.
    + intros d' Hd'. apply Hdata. right. exact Hd'.
    + apply day_step_wf, set_model_wf. exact Hwf.
Qed.

Lemma simulate_battery_for_ok solver sim_length initial_level price_data maxD maxC
    discharge_energy_capacity efficiency discharge_efficiency max_daily_discharged_throughput
    H start_day min_capacity log :
  solver_binds solver ->
  (24 <= H)%nat ->
  (24 * sim_length + H <= length price_data + 24)%nat ->
  let r := run_days solver price_data discharge_energy_capacity efficiency
             discharge_efficiency max_daily_discharged_throughput H min_capacity
             (seq 0 sim_length) (start_state H maxD maxC initial_level) in
  simulate_battery_for solver sim_length initial_level price_data maxD maxC
    discharge_energy_capacity efficiency discharge_efficiency max_daily_discharged_throughput
    H start_day min_capacity log
  = (log ++ fst r,
     Ok (all_hourly_charges (snd r), all_hourly_discharges (snd r),
         all_hourly_state_of_energy (snd r), all_daily_discharge_throughput (snd r))).
Proof.
  intros Hb HH Hdata r. unfold simulate_battery_for, mbind, Sim_bind.
  fold (start_state H maxD maxC initial_level).
  rewrite (simulate_days_ok _ _ _ _ _ _ _ _ maxD maxC) by
    (try assumption; try apply Battery_init_wf; intros d Hd; apply in_seq in Hd; lia).
  reflexivity.
Qed.

(** Every day appends 24 hours to the hourly outputs, one entry to the daily
    throughput, and calls the solver once. *)
Lemma run_days_lengths solver price_data discharge_energy_capacity efficiency
    discharge_efficiency max_daily_discharged_throughput H min_capacity days s :
  let r := run_days solver price_data discharge_energy_capacity efficiency
             discharge_efficiency max_daily_discharged_throughput H min_capacity days s in
  length (all_hourly_charges (snd r))
    = (length (all_hourly_charges s) + 24 * length days)%nat /\
  length (all_hourly_discharges (snd r))
    = (length (all_hourly_discharges s) + 24 * length days)%nat /\
  length (all_hourly_state_of_energy (snd r))
    = (length (all_hourly_state_of_energy s) + 24 * length days)%nat /\
  length (all_daily_discharge_throughput (snd r))
    = (length (all_daily_discharge_throughput s) + length days)%nat /\
  solver_calls (fst r) = length days.
Proof.
  revert s. induction days as [|d days IH]; intros s; cbn [run_days fst snd length].
  - repeat split; lia.
  - match goal with |- context [run_days _ _ _ _ _ _ _ _ days ?s'] =>
      destruct (IH s') as (Hc & Hd & He & Ht & Hs) end.
    rewrite Hc, Hd, He, Ht. cbn [day_step all_hourly_charges all_hourly_discharges
      all_hourly_state_of_energy all_daily_discharge_throughput].
    rewrite !length_app, !length_map, day_trajectory_length, !day_values_length.
    cbn [length]. repeat split; try lia.
    unfold day_events. cbn [app solver_calls].
    destruct (fst (solver _ _)); cbn [warning app solver_calls]; rewrite Hs; reflexivity.
Qed.

(** ** The candidate solver *)

Lemma holdsb_spec a c : holdsb a c = true <-> holds a c.
Proof.
  unfold holdsb, holds. destruct (sense c).
  - apply Qle_bool_iff.
  - apply Qeq_bool_iff.
  - apply Qle_bool_iff.
Qed.

Lemma within_boundsb_spec a v : within_boundsb a v = true <-> within_bounds a v.
Proof.
  unfold within_boundsb, within_bounds. rewrite andb_true_iff.
  destruct (lowBound v), (upBound v); rewrite ?Qle_bool_iff; tauto.
Qed.

Lemma feasibleb_spec vs p a : feasibleb vs p a = true <-> feasible vs p a.
Proof.
  unfold feasibleb, feasible. rewrite andb_true_iff, !forallb_forall, !Forall_forall.
  split; intros [Hv Hc]; split; intros x Hx.
  - apply within_boundsb_spec, Hv, list_elem_of_In, Hx.
  - apply holdsb_spec, Hc, list_elem_of_In, Hx.
  - apply within_boundsb_spec, Hv, list_elem_of_In, Hx.
  - apply holdsb_spec, Hc, list_elem_of_In, Hx.
Qed.

Lemma best_candidate_feasible vs p cands a :
  best_candidate vs p cands = Some a -> feasible vs p a.
Proof.
  revert a. induction cands as [|c cands IH]; intros a; simpl; [discriminate|].
  destruct (feasibleb vs p c) eqn:Hc.
  - destruct (best_candidate vs p cands) as [a'|].
    + destruct (Qle_bool _ _); intros [= <-].
      * apply feasibleb_spec, Hc.
      * apply IH. reflexivity.
    + intros [= <-]. apply feasibleb_spec, Hc.
  - apply IH.
Qed.

Lemma candidate_solver_sound cands : solver_sound (candidate_solver cands).
Proof.
  intros vs p. unfold candidate_solver.
  destruct (best_candidate vs p cands) as [a|] eqn:Hbest; simpl; [|discriminate].
  intros _. exists a. split; [|reflexivity].
  eapply best_candidate_feasible. exact Hbest.
Qed.

Lemma candidate_solver_binds cands : solver_binds (candidate_solver cands).
Proof.
  intros vs p v. unfold candidate_solver.
  destruct (best_candidate vs p cands); simpl; eauto.
Qed.

(** ** Variables and their bounds *)

Lemma charge_in_variables b i v :
  charge b !! i = Some v -> In v (battery_variables b).
Proof.
  intros Hv. unfold battery_variables. apply in_or_app. left.
  apply in_map_iff. exists (i, v). split; [reflexivity|].
  apply list_elem_of_In, elem_of_map_to_list. exact Hv.
Qed.

Lemma discharge_in_variables b i v :
  discharge b !! i = Some v -> In v (battery_variables b).
Proof.
  intros Hv. unfold battery_variables. apply in_or_app. right.
  apply in_map_iff. exists (i, v). split; [reflexivity|].
  apply list_elem_of_In, elem_of_map_to_list. exact Hv.
Qed.

Lemma feasible_power_bounds H maxD maxC b p a i :
  wf_battery H maxD maxC b -> feasible (battery_variables b) p a -> (i < H)%nat ->
  (0 <= a (charging_power_c_t i) /\ a (charging_power_c_t i) <= maxC) /\
  (0 <= a (discharging_power_d_t i) /\ a (discharging_power_d_t i) <= maxD).
Proof.
  intros Hwf [Hbounds _] Hi. rewrite Forall_forall in Hbounds. split.
  - destruct (wf_charge _ _ _ _ Hwf i Hi) as (v & Hv & Hn & Hl & Hu).
    specialize (Hbounds v (proj2 (list_elem_of_In _ _) (charge_in_variables b i v Hv))).
    unfold within_bounds in Hbounds. rewrite Hl, Hu, Hn in Hbounds. exact Hbounds.
  - destruct (wf_discharge _ _ _ _ Hwf i Hi) as (v & Hv & Hn & Hl & Hu).
    specialize (Hbounds v (proj2 (list_elem_of_In _ _) (discharge_in_variables b i v Hv))).
    unfold within_bounds in Hbounds. rewrite Hl, Hu, Hn in Hbounds. exact Hbounds.
Qed.

Lemma solver_calls_app l1 l2 : solver_calls (l1 ++ l2) = (solver_calls l1 + solver_calls l2)%nat.
Proof.
  induction l1 as [|e l1 IH]; simpl; [reflexivity|].
  destruct e; simpl; rewrite IH; reflexivity.
Qed.

(** ** Batteries that were never solved *)

Lemma value_at_init mk n low up c i :
  value_at (LpVariable_dicts mk (seq 0 n) low up c) i = None.
Proof.
  unfold value_at. rewrite LpVariable_dicts_lookup.
  destruct (decide (i < n)%nat); reflexivity.
Qed.

Lemma Battery_init_unsolved H maxD maxC : unsolved (Battery_init H maxD maxC).
Proof. intros i. split; apply value_at_init. Qed.

Lemma prepare_day_wf H maxD maxC b prices
    efficiency min_capacity discharge_energy_capacity discharge_efficiency initial_level
    max_daily_discharged_throughput :
  wf_battery H maxD maxC b -> length prices = H ->
  prepare_day b prices efficiency min_capacity discharge_energy_capacity
    discharge_efficiency initial_level max_daily_discharged_throughput
  = Ok (set_model b
          (day_problem (model b) prices H efficiency min_capacity discharge_energy_capacity
             discharge_efficiency initial_level max_daily_discharged_throughput)).
Proof.
  intros Hwf Hlen. unfold prepare_day.
  rewrite (set_objective_wf H maxD maxC) by assumption. cbn [mbind result_bind].
  rewrite (add_storage_constraints_wf H maxD maxC) by (apply set_model_wf; exact Hwf).
  cbn [mbind result_bind].
  rewrite (add_throughput_constraints_wf H maxD maxC) by (repeat apply set_model_wf; exact Hwf).
  reflexivity.
Qed.

(** ** The cycles of a run *)

Lemma cycles_app l1 l2 : cycles (l1 ++ l2) = cycles l1 ++ cycles l2.
Proof.
  induction l1 as [|e l1 IH]; simpl; [reflexivity|].
  destruct e; simpl; rewrite IH; reflexivity.
Qed.

Lemma run_days_cycles solver price_data discharge_energy_capacity efficiency
    discharge_efficiency max_daily_discharged_throughput H min_capacity days s :
  cycles (fst (run_days solver price_data discharge_energy_capacity efficiency
                 discharge_efficiency max_daily_discharged_throughput H min_capacity days s))
  = days.
Proof.
  revert s. induction days as [|d days IH]; intros s; cbn [run_days fst]; [reflexivity|].
  rewrite cycles_app, IH. unfold day_events. cbn [cycles].
  destruct (fst (solver _ _)); reflexivity.
Qed.

(** ** Infeasible storage bounds *)

Lemma storage_constraints_infeasible a H
    efficiency min_capacity discharge_energy_capacity discharge_efficiency initial_level :
  (1 <= H)%nat -> discharge_energy_capacity < min_capacity ->
  ~ Forall (holds a)
      (storage_constraints H efficiency min_capacity discharge_energy_capacity
         discharge_efficiency initial_level).
Proof.
  intros HH Hlt Hall.
  destruct (proj1 (Forall_holds_storage_constraints _ _ _ _ _ _ _) Hall 1%nat) as [Hlo Hup];
    [lia|].
  lra.
Qed.

Lemma day_battery_constraints price_data discharge_energy_capacity efficiency
    discharge_efficiency max_daily_discharged_throughput H min_capacity day_count s :
  constraints (model (day_battery price_data discharge_energy_capacity efficiency
                        discharge_efficiency max_daily_discharged_throughput H min_capacity
                        day_count s))
  = constraints (model (battery s)) ++
    storage_constraints H efficiency min_capacity discharge_energy_capacity
      discharge_efficiency (initial_level s) ++
    [throughput_constraint H max_daily_discharged_throughput].
Proof. simpl. rewrite <- app_assoc. reflexivity. Qed.

(** ** Constraints pile up on the battery the loop reuses *)

(** The model of a day holds the constraints of all the days before it. *)
Lemma next_day_constraints solver price_data discharge_energy_capacity efficiency
    discharge_efficiency max_daily_discharged_throughput H min_capacity day_count day_count' s :
  let b3 := day_battery price_data discharge_energy_capacity efficiency discharge_efficiency
              max_daily_discharged_throughput H min_capacity day_count s in
  let s' := day_step solver b3 efficiency discharge_efficiency s in
  constraints (model (day_battery price_data discharge_energy_capacity efficiency
                        discharge_efficiency max_daily_discharged_throughput H min_capacity
                        day_count' s'))
  = constraints (model b3) ++
    storage_constraints H efficiency min_capacity discharge_energy_capacity
      discharge_efficiency (initial_level s') ++
    [throughput_constraint H max_daily_discharged_throughput].
Proof. intros b3 s'. rewrite day_battery_constraints. reflexivity. Qed.

(** ** Bounds of feasible schedules *)

(** The bounds a feasible schedule of a day obeys after [k] hours. *)
Lemma feasible_storage_bounds vs p a pre H
    efficiency min_capacity discharge_energy_capacity discharge_efficiency L thr k :
  constraints p
  = pre ++ storage_constraints H efficiency min_capacity discharge_energy_capacity
             discharge_efficiency L ++ [throughput_constraint H thr] ->
  feasible vs p a -> (1 <= k <= H)%nat ->
  min_capacity <= state_of_energy a efficiency discharge_efficiency L k /\
  state_of_energy a efficiency discharge_efficiency L k <= discharge_energy_capacity.
Proof.
  intros Hp [_ Hcs] Hk. rewrite Hp, !Forall_app in Hcs. destruct Hcs as (_ & Hcs & _).
  apply (proj1 (Forall_holds_storage_constraints _ _ _ _ _ _ _) Hcs k Hk).
Qed.

(** ** The trajectory of a day *)

Lemma sum_upto_shift n (f : nat -> Q) :
  sum_upto (S n) f == f 0%nat + sum_upto n (fun i => f (S i)).
Proof.
  induction n as [|n IH].
  - simpl. ring.
  - change (sum_upto (S (S n)) f) with (sum_upto (S n) f + f (S n)).
    rewrite IH. simpl. ring.
Qed.

Lemma cumsum_from_nth acc l k :
  (k < length l)%nat ->
  nth k (cumsum_from acc l) 0 == acc + sum_upto (S k) (fun i => nth i l 0).
Proof.
  revert acc k. induction l as [|x l IH]; intros acc k Hk; simpl in Hk; [lia|].
  rewrite sum_upto_shift. destruct k as [|k].
  - simpl. ring.
  - cbn [cumsum_from nth]. rewrite IH by lia. cbn [nth]. ring.
Qed.

Lemma np_cumsum_nth l k :
  (k < length l)%nat ->
  nth k (np_cumsum l) 0 == sum_upto (S k) (fun i => nth i l 0).
Proof.
  destruct l as [|x l]; intros Hk; simpl in Hk; [lia|].
  rewrite sum_upto_shift. destruct k as [|k].
  - simpl. ring.
  - cbn [np_cumsum nth]. rewrite cumsum_from_nth by lia. reflexivity.
Qed.

Lemma np_sub_nth l1 l2 k :
  (k < length l1)%nat -> (k < length l2)%nat ->
  nth k (np_sub l1 l2) 0 = nth k l1 0 - nth k l2 0.
Proof.
  revert l2 k. induction l1 as [|x l1 IH]; intros [|y l2] k H1 H2; simpl in *; try lia.
  destruct k as [|k]; [reflexivity|]. apply IH; lia.
Qed.

Lemma scale_nth (l : list Q) (c : Q) k :
  (k < length l)%nat -> nth k (map (fun q => q * c) l) 0 = nth k l 0 * c.
Proof.
  revert k. induction l as [|x l IH]; intros k Hk; simpl in *; [lia|].
  destruct k as [|k]; [reflexivity|]. apply IH. lia.
Qed.

(** The trajectory of a day is the level the day began with plus the running
    sum of the hourly net changes, taken at the end of each hour. *)
Lemma day_trajectory_spec initial_level efficiency discharge_efficiency cv dv k :
  (k < length cv)%nat -> (k < length dv)%nat ->
  nth k (day_trajectory initial_level efficiency discharge_efficiency cv dv) 0
  == initial_level
     + sum_upto (S k) (fun i => nth i cv 0 * efficiency - nth i dv 0 * discharge_efficiency).
Proof.
  intros Hc Hd. unfold day_trajectory, np_add_scalar.
  set (net := np_sub _ _).
  assert (Hnet : length net = Nat.min (length cv) (length dv)).
  { unfold net. rewrite np_sub_length, !length_map. reflexivity. }
  assert (Hlen : (k < length (np_cumsum net))%nat) by (rewrite np_cumsum_length; lia).
  rewrite (nth_indep _ 0 (initial_level + 0)) by (rewrite length_map; exact Hlen).
  rewrite (map_nth (fun x => initial_level + x)).
  rewrite np_cumsum_nth by lia.
  apply Qplus_comp; [reflexivity|].
  apply sum_upto_ext. intros i Hi. unfold net.
  rewrite np_sub_nth, !scale_nth by (rewrite ?length_map; lia). reflexivity.
Qed.

(** The level the next day begins with is the last entry of the trajectory. *)
Lemma day_step_level solver b3 efficiency discharge_efficiency s :
  let vals := snd (solver (battery_variables b3) (model b3)) in
  let trajectory := day_trajectory (initial_level s) efficiency discharge_efficiency
                      (day_values vals charging_power_c_t)
                      (day_values vals discharging_power_d_t) in
  last trajectory = Some (initial_level (day_step solver b3 efficiency discharge_efficiency s))
  /\ all_hourly_state_of_energy (day_step solver b3 efficiency discharge_efficiency s)
     = all_hourly_state_of_energy s ++ trajectory.
Proof.
  intros vals trajectory. split; [|reflexivity].
  destruct (last_nonempty trajectory) as [x Hx].
  { unfold trajectory. rewrite day_trajectory_length, !day_values_length. simpl. lia. }
  cbn [day_step initial_level]. fold vals. fold trajectory. rewrite Hx. reflexivity.
Qed.

(** A day of the driver appends the trajectory of the day (the level the day
    began with plus the running sum of the net hourly changes of the values
    collected) and hands its last entry to the next day. *)
Lemma simulate_day_trajectory solver price_data discharge_energy_capacity efficiency
    discharge_efficiency max_daily_discharged_throughput H min_capacity day_count s log
    maxD maxC :
  solver_binds solver ->
  wf_battery H maxD maxC (battery s) ->
  (24 <= H)%nat ->
  (24 * day_count + H <= length price_data)%nat ->
  exists log' s' cv dv trajectory,
    simulate_day solver price_data discharge_energy_capacity efficiency discharge_efficiency
      max_daily_discharged_throughput H min_capacity day_count s log = (log', Ok s') /\
    all_hourly_charges s' = all_hourly_charges s ++ map Some cv /\
    all_hourly_discharges s' = all_hourly_discharges s ++ map Some dv /\
    all_hourly_state_of_energy s' = all_hourly_state_of_energy s ++ trajectory /\
    length cv = 24%nat /\ length dv = 24%nat /\ length trajectory = 24%nat /\
    (forall k, (k < 24)%nat ->
       nth k trajectory 0
       == initial_level s
          + sum_upto (S k)
              (fun i => nth i cv 0 * efficiency - nth i dv 0 * discharge_efficiency)) /\
    last trajectory = Some (initial_level s').
Proof.
  intros Hb Hwf HH Hdata.
  set (b3 := day_battery price_data discharge_energy_capacity efficiency discharge_efficiency
               max_daily_discharged_throughput H min_capacity day_count s).
  set (vals := snd (solver (battery_variables b3) (model b3))).
  exists (log ++ day_events solver b3 day_count),
         (day_step solver b3 efficiency discharge_efficiency s),
         (day_values vals charging_power_c_t), (day_values vals discharging_power_d_t),
         (day_trajectory (initial_level s) efficiency discharge_efficiency
            (day_values vals charging_power_c_t) (day_values vals discharging_power_d_t)).
  split; [apply (simulate_day_ok _ _ _ _ _ _ _ _ _ _ _ maxD maxC); assumption|].
  do 3 (split; [reflexivity|]).
  rewrite day_trajectory_length, !day_values_length.
  do 3 (split; [reflexivity|]).
  split.
  - intros k Hk. apply day_trajectory_spec; rewrite day_values_length; exact Hk.
  - apply (day_step_level solver b3 efficiency discharge_efficiency s).
Qed.

(** ** Feasible schedules of a battery *)

Lemma variables_of_battery H maxD maxC b v :
  wf_battery H maxD maxC b -> In v (battery_variables b) ->
  exists i, (i < H)%nat /\ lowBound v = Some 0 /\
    ((name v = charging_power_c_t i /\ upBound v = Some maxC) \/
     (name v = discharging_power_d_t i /\ upBound v = Some maxD)).
Proof.
  intros Hwf Hin. unfold battery_variables in Hin. apply in_app_or in Hin.
  destruct Hin as [Hin|Hin]; apply in_map_iff in Hin; destruct Hin as ([i w] & <- & Hin);
    apply list_elem_of_In, elem_of_map_to_list in Hin; simpl; exists i.
  - destruct (Nat.lt_ge_cases i H) as [Hi|Hi].
    + destruct (wf_charge _ _ _ _ Hwf i Hi) as (w' & Hw' & Hn & Hl & Hu).
      rewrite Hin in Hw'. injection Hw' as <-. auto.
    + rewrite (wf_charge_out _ _ _ _ Hwf i Hi) in Hin. discriminate.
  - destruct (Nat.lt_ge_cases i H) as [Hi|Hi].
    + destruct (wf_discharge _ _ _ _ Hwf i Hi) as (w' & Hw' & Hn & Hl & Hu).
      rewrite Hin in Hw'. injection Hw' as <-. auto.
    + rewrite (wf_discharge_out _ _ _ _ Hwf i Hi) in Hin. discriminate.
Qed.

(** The bounds of the variables of a battery are those of its constructor,
    whatever values the variables hold. *)
Lemma within_bounds_wf H maxD maxC b a :
  wf_battery H maxD maxC b ->
  (Forall (within_bounds a) (battery_variables b) <-> within_power a H maxD maxC).
Proof.
  intros Hwf. split.
  - intros Hall i Hi.
    apply (feasible_power_bounds H maxD maxC b (LpProblem_new LpMaximize) a i Hwf);
      [|exact Hi].
    split; [exact Hall | constructor].
  - intros Hp. apply Forall_forall. intros v Hv. apply list_elem_of_In in Hv.
    destruct (variables_of_battery H maxD maxC b v Hwf Hv) as (i & Hi & Hl & Hcase).
    destruct (Hp i Hi) as [[Hc0 Hc1] [Hd0 Hd1]].
    unfold within_bounds. rewrite Hl.
    destruct Hcase as [[-> ->]|[-> ->]]; split; assumption.
Qed.

(** ** A day of the loop in two halves *)

(** With one price per hour of the horizon the first half of a day cannot
    fail: the day logs its line and the call to the solver, and its result is
    that of the second half on the solved battery.  Otherwise the day ends
    with the error of [set_objective], right after its line. *)
Lemma simulate_day_split solver price_data discharge_energy_capacity efficiency
    discharge_efficiency max_daily_discharged_throughput H min_capacity day_count s log
    maxD maxC :
  wf_battery H maxD maxC (battery s) ->
  length (data_for_this_day price_data day_count H) = H ->
  let b3 := day_battery price_data discharge_energy_capacity efficiency discharge_efficiency
              max_daily_discharged_throughput H min_capacity day_count s in
  simulate_day solver price_data discharge_energy_capacity efficiency discharge_efficiency
    max_daily_discharged_throughput H min_capacity day_count s log
  = (log ++ day_events solver b3 day_count,
     finish_day (solved solver b3) efficiency discharge_efficiency s).
Proof.
  intros Hwf Hlen b3.
  unfold simulate_day, mbind, Sim_bind, emit, lift, mret, Sim_ret.
  rewrite (set_objective_wf H maxD maxC) by assumption.
  rewrite (add_storage_constraints_wf H maxD maxC) by (apply set_model_wf; exact Hwf).
  rewrite (add_throughput_constraints_wf H maxD maxC) by (repeat apply set_model_wf; exact Hwf).
  change (set_model (set_model (set_model (battery s) _) _) _) with b3.
  rewrite solve_model_run. unfold day_events. rewrite <- app_assoc. cbn [app].
  unfold finish_day, mbind, result_bind.
  destruct (collect_output (solved solver b3)) as [[hc hd]|e]; [|reflexivity].
  cbn [fst snd].
  destruct (py_sum hd) as [t|e]; [|reflexivity].
  destruct (np_scale hc efficiency) as [charged|e]; [|reflexivity].
  destruct (np_scale hd discharge_efficiency) as [discharged|e]; [|reflexivity].
  destruct (index_last _) as [next|e]; reflexivity.
Qed.

(** [collect_output] after a solve returns what the solver reported for the
    variables of the first 24 hours, unbound ones included. *)
Lemma collect_output_solved solver H maxD maxC b :
  wf_battery H maxD maxC b -> (24 <= H)%nat ->
  collect_output (solved solver b)
  = Ok (map (fun i => snd (solver (battery_variables b) (model b)) (charging_power_c_t i))
          (seq 0 24),
        map (fun i => snd (solver (battery_variables b) (model b)) (discharging_power_d_t i))
          (seq 0 24)).
Proof.
  intros Hwf HH.
  rewrite (collect_output_wf H maxD maxC) by (try apply solved_wf; assumption).
  f_equal. apply (f_equal2 pair); apply map_ext_in; intros i Hi; apply in_seq in Hi;
    unfold value_at.
  - destruct (solved_charge_value solver H maxD maxC b i Hwf) as (v & -> & ->); [lia|].
    reflexivity.
  - destruct (solved_discharge_value solver H maxD maxC b i Hwf) as (v & -> & ->); [lia|].
    reflexivity.
Qed.

(** ** Unbound values *)

Lemma for_in_sum_unbound (l : list (option Q)) (acc : Q) :
  In None l ->
  for_in l (fun x acc => q ← number x; Ok (acc + q)) acc = Raise TypeError.
Proof.
  revert acc. induction l as [|x l IH]; intros acc Hin; [destruct Hin|].
  destruct x as [q|]; simpl; [|reflexivity].
  apply IH. destruct Hin as [Hx|Hin]; [discriminate | exact Hin].
Qed.

Lemma py_sum_unbound (l : list (option Q)) : In None l -> py_sum l = Raise TypeError.
Proof. apply for_in_sum_unbound. Qed.

Lemma np_scale_unbound (l : list (option Q)) (c : Q) :
  In None l -> np_scale l c = Raise TypeError.
Proof.
  unfold np_scale. induction l as [|x l IH]; intros Hin; [destruct Hin|].
  destruct x as [q|]; simpl; [|reflexivity].
  rewrite IH; [reflexivity|]. destruct Hin as [Hx|Hin]; [discriminate | exact Hin].
Qed.

Lemma bound_values (vals : VarName -> option Q) (mk : nat -> VarName) :
  (forall i, (i < 24)%nat -> is_Some (vals (mk i))) ->
  map (fun i => vals (mk i)) (seq 0 24) = map Some (day_values vals mk).
Proof.
  intros Hb. unfold day_values. rewrite map_map. apply map_ext_in. intros i Hi.
  apply in_seq in Hi. destruct (Hb i) as [q ->]; [lia | reflexivity].
Qed.

Lemma unbound_value (vals : VarName -> option Q) (mk : nat -> VarName) i :
  (i < 24)%nat -> vals (mk i) = None -> In None (map (fun i => vals (mk i)) (seq 0 24)).
Proof.
  intros Hi Hnone. apply in_map_iff. exists i. split; [exact Hnone|]. apply in_seq. lia.
Qed.

Lemma classic_unbound (l : list (option Q)) : In None l \/ exists qs, l = map Some qs.
Proof.
  induction l as [|x l IH]; [right; exists []; reflexivity|].
  destruct x as [q|]; [|left; left; reflexivity].
  destruct IH as [Hin|(qs & ->)]; [left; right; exact Hin|].
  right. exists (q :: qs). reflexivity.
Qed.

(** The second half of a day succeeds when the solver left a number in the
    variables of the first 24 hours, and raises [TypeError] when it left one
    of them unbound. *)
Lemma finish_day_collected b4 efficiency discharge_efficiency s cv dv :
  collect_output b4 = Ok (map Some cv, map Some dv) ->
  (0 < length cv)%nat -> (0 < length dv)%nat ->
  exists next,
    last (day_trajectory (initial_level s) efficiency discharge_efficiency cv dv) = Some next /\
    finish_day b4 efficiency discharge_efficiency s
    = Ok {| battery := b4;
            initial_level := next;
            all_hourly_charges := all_hourly_charges s ++ map Some cv;
            all_hourly_discharges := all_hourly_discharges s ++ map Some dv;
            all_hourly_state_of_energy :=
              all_hourly_state_of_energy s
              ++ day_trajectory (initial_level s) efficiency discharge_efficiency cv dv;
            all_daily_discharge_throughput :=
              all_daily_discharge_throughput s ++ [fold_left Qplus dv 0] |}.
Proof.
  intros Hc Hcv Hdv.
  destruct (last_nonempty (day_trajectory (initial_level s) efficiency discharge_efficiency
                             cv dv)) as [x Hx].
  { rewrite day_trajectory_length. lia. }
  exists x. split; [exact Hx|].
  unfold finish_day. rewrite Hc. cbn [mbind result_bind fst snd].
  rewrite py_sum_Some, !np_scale_Some. cbn [mbind result_bind].
  fold (day_trajectory (initial_level s) efficiency discharge_efficiency cv dv).
  unfold index_last. rewrite Hx. reflexivity.
Qed.

Lemma finish_day_bound solver H maxD maxC b3 efficiency discharge_efficiency s :
  wf_battery H maxD maxC b3 -> (24 <= H)%nat ->
  (forall i, (i < 24)%nat ->
     is_Some (snd (solver (battery_variables b3) (model b3)) (charging_power_c_t i)) /\
     is_Some (snd (solver (battery_variables b3) (model b3)) (discharging_power_d_t i))) ->
  finish_day (solved solver b3) efficiency discharge_efficiency s
  = Ok (day_step solver b3 efficiency discharge_efficiency s).
Proof.
  intros Hwf HH Hb.
  set (vals := snd (solver (battery_variables b3) (model b3))).
  assert (Hc : collect_output (solved solver b3)
               = Ok (map Some (day_values vals charging_power_c_t),
                     map Some (day_values vals discharging_power_d_t))).
  { rewrite (collect_output_solved solver H maxD maxC) by assumption. fold vals.
    rewrite (bound_values vals charging_power_c_t) by (intros i Hi; apply (Hb i Hi)).
    rewrite (bound_values vals discharging_power_d_t) by (intros i Hi; apply (Hb i Hi)).
    reflexivity. }
  destruct (finish_day_collected _ efficiency discharge_efficiency s _ _ Hc)
    as (next & Hlast & Heq).
  { rewrite day_values_length. lia. }
  { rewrite day_values_length. lia. }
  rewrite Heq. unfold day_step. fold vals. rewrite Hlast. reflexivity.
Qed.

Lemma finish_day_unbound_collected b4 efficiency discharge_efficiency s hc hd :
  collect_output b4 = Ok (hc, hd) -> In None hc \/ In None hd ->
  finish_day b4 efficiency discharge_efficiency s = Raise TypeError.
Proof.
  intros Hc Hnone. unfold finish_day. rewrite Hc. cbn [mbind result_bind fst snd].
  destruct (classic_unbound hd) as [Hin|(qs & ->)].
  - rewrite (py_sum_unbound hd Hin). reflexivity.
  - rewrite py_sum_Some. destruct Hnone as [Hin|Hin].
    + rewrite (np_scale_unbound hc _ Hin). reflexivity.
    + apply in_map_iff in Hin. destruct Hin as (q & Hq & _). discriminate.
Qed.

Lemma finish_day_unbound solver H maxD maxC b3 efficiency discharge_efficiency s i :
  wf_battery H maxD maxC b3 -> (24 <= H)%nat -> (i < 24)%nat ->
  snd (solver (battery_variables b3) (model b3)) (charging_power_c_t i) = None \/
  snd (solver (battery_variables b3) (model b3)) (discharging_power_d_t i) = None ->
  finish_day (solved solver b3) efficiency discharge_efficiency s = Raise TypeError.
Proof.
  intros Hwf HH Hi Hnone.
  apply (finish_day_unbound_collected _ _ _ _ _ _
           (collect_output_solved solver H maxD maxC b3 Hwf HH)).
  destruct Hnone as [Hc|Hd]; [left | right].
  - apply (unbound_value _ charging_power_c_t i Hi Hc).
  - apply (unbound_value _ discharging_power_d_t i Hi Hd).
Qed.

Lemma simulate_day_short solver price_data discharge_energy_capacity efficiency
    discharge_efficiency max_daily_discharged_throughput H min_capacity day_count s log
    maxD maxC :
  wf_battery H maxD maxC (battery s) ->
  length (data_for_this_day price_data day_count H) <> H ->
  simulate_day solver price_data discharge_energy_capacity efficiency discharge_efficiency
    max_daily_discharged_throughput H min_capacity day_count s log
  = (log ++ [Print_trying_cycle day_count],
     Raise (AssertionError "Error: need one price for each hour in time horizon")).
Proof.
  intros Hwf Hlen. unfold simulate_day, mbind, Sim_bind, emit, lift.
  rewrite set_objective_mismatch; [reflexivity|].
  rewrite (wf_horizon _ _ _ _ Hwf). exact Hlen.
Qed.

(** The window of a day is complete exactly when the price data reaches the
    end of the horizon of that day. *)
Lemma data_for_this_day_complete price_data day_count H :
  length (data_for_this_day price_data day_count H) = H <->
  (H = 0 \/ 24 * day_count + H <= length price_data)%nat.
Proof.
  unfold data_for_this_day. rewrite length_take, length_drop. lia.
Qed.

(** ** Sums of hourly values *)

Lemma fold_left_Qplus_acc (l : list Q) (acc : Q) :
  fold_left Qplus l acc == acc + fold_left Qplus l 0.
Proof.
  revert acc. induction l as [|x l IH]; intros acc; simpl; [ring|].
  rewrite (IH (acc + x)), (IH (0 + x)). ring.
Qed.

Lemma fold_left_Qplus_seq (f : nat -> Q) n :
  fold_left Qplus (map f (seq 0 n)) 0 == sum_upto n f.
Proof.
  induction n as [|n IH]; [reflexivity|].
  rewrite seq_S, map_app, fold_left_app. simpl. rewrite IH. reflexivity.
Qed.

Lemma sum_upto_le n m (f : nat -> Q) :
  (n <= m)%nat -> (forall i, (n <= i < m)%nat -> 0 <= f i) ->
  sum_upto n f <= sum_upto m f.
Proof.
  intros Hnm Hpos. induction m as [|m IH].
  - replace n with 0%nat by lia. apply Qle_refl.
  - destruct (Nat.eq_dec n (S m)) as [->|Hne]; [apply Qle_refl|].
    simpl. pose proof (Hpos m ltac:(lia)) as Hm.
    assert (IH' : sum_upto n f <= sum_upto m f) by (apply IH; [lia | intros; apply Hpos; lia]).
    lra.
Qed.

Lemma day_values_assignment (vals : VarName -> option Q) (a : assignment)
    (mk : nat -> VarName) :
  (forall v, vals v = Some (a v)) ->
  day_values vals mk = map (fun i => a (mk i)) (seq 0 24).
Proof.
  intros Hv. unfold day_values. apply map_ext. intros i. rewrite Hv. reflexivity.
Qed.

Lemma nth_map_seq (f : nat -> Q) n i : (i < n)%nat -> nth i (map f (seq 0 n)) 0 = f i.
Proof.
  intros Hi. rewrite (nth_indep _ 0 (f 0%nat)) by (rewrite length_map, length_seq; exact Hi).
  rewrite map_nth, seq_nth by exact Hi. reflexivity.
Qed.

(** ** A day solved to optimality stays within the limits *)

Lemma feasible_throughput vs p a pre H
    efficiency min_capacity discharge_energy_capacity discharge_efficiency L thr :
  constraints p
  = pre ++ storage_constraints H efficiency min_capacity discharge_energy_capacity
             discharge_efficiency L ++ [throughput_constraint H thr] ->
  feasible vs p a ->
  sum_upto H (fun i => a (discharging_power_d_t i)) <= thr.
Proof.
  intros Hp [_ Hcs]. rewrite Hp, !Forall_app in Hcs. destruct Hcs as (_ & _ & Hthr).
  apply Forall_inv in Hthr. apply holds_throughput_constraint. exact Hthr.
Qed.

Lemma day_trajectory_of_assignment (a : assignment) L efficiency discharge_efficiency k :
  (k < 24)%nat ->
  nth k (day_trajectory L efficiency discharge_efficiency
           (map (fun i => a (charging_power_c_t i)) (seq 0 24))
           (map (fun i => a (discharging_power_d_t i)) (seq 0 24))) 0
  == state_of_energy a efficiency discharge_efficiency L (S k).
Proof.
  intros Hk. rewrite day_trajectory_spec by (rewrite length_map, length_seq; exact Hk).
  unfold state_of_energy. apply Qplus_comp; [reflexivity|].
  apply sum_upto_ext. intros i Hi. rewrite !nth_map_seq by lia. reflexivity.
Qed.

Lemma day_step_within_limits solver H maxD maxC b3 pre
    efficiency min_capacity discharge_energy_capacity discharge_efficiency thr s a :
  wf_battery H maxD maxC b3 -> (24 <= H)%nat ->
  constraints (model b3)
  = pre ++ storage_constraints H efficiency min_capacity discharge_energy_capacity
             discharge_efficiency (initial_level s) ++ [throughput_constraint H thr] ->
  feasible (battery_variables b3) (model b3) a ->
  (forall v, snd (solver (battery_variables b3) (model b3)) v = Some (a v)) ->
  within_limits min_capacity discharge_energy_capacity maxD maxC thr s ->
  within_limits min_capacity discharge_energy_capacity maxD maxC thr
    (day_step solver b3 efficiency discharge_efficiency s).
Proof.
  intros Hwf HH Hcs Hfeas Hvals (Hsoe & Hch & Hdis & Hthr).
  unfold within_limits, day_step.
  cbn [all_hourly_state_of_energy all_hourly_charges all_hourly_discharges
       all_daily_discharge_throughput].
  rewrite !(day_values_assignment _ a _ Hvals).
  assert (Hpow : within_power a H maxD maxC).
  { intros i Hi. apply (feasible_power_bounds H maxD maxC b3 _ a i Hwf Hfeas Hi). }
  split; [|split; [|split]]; apply Forall_app; split; try assumption.
  - apply List.Forall_forall. intros x Hx.
    apply (In_nth _ _ 0) in Hx. destruct Hx as (k & Hk & <-).
    rewrite day_trajectory_length, !length_map, length_seq in Hk. simpl in Hk.
    rewrite day_trajectory_of_assignment by lia.
    apply (feasible_storage_bounds _ _ a pre H _ _ _ _ _ thr (S k) Hcs Hfeas). lia.
  - apply List.Forall_forall. intros o Ho.
    apply in_map_iff in Ho. destruct Ho as (q & <- & Hq).
    apply in_map_iff in Hq. destruct Hq as (i & <- & Hi). apply in_seq in Hi.
    eexists. split; [reflexivity|]. apply (Hpow i). lia.
  - apply List.Forall_forall. intros o Ho.
    apply in_map_iff in Ho. destruct Ho as (q & <- & Hq).
    apply in_map_iff in Hq. destruct Hq as (i & <- & Hi). apply in_seq in Hi.
    eexists. split; [reflexivity|]. apply (Hpow i). lia.
  - constructor; [|constructor].
    rewrite (fold_left_Qplus_seq (fun i => a (discharging_power_d_t i)) 24).
    apply Qle_trans with (sum_upto H (fun i => a (discharging_power_d_t i))).
    + apply sum_upto_le; [exact HH|]. intros i Hi. apply (Hpow i). lia.
    + apply (feasible_throughput _ _ a pre H _ _ _ _ _ thr Hcs Hfeas).
Qed.

(** ** The log of a run only grows *)

Lemma warnings_app l1 l2 : warnings (l1 ++ l2) = warnings l1 ++ warnings l2.
Proof.
  induction l1 as [|e l1 IH]; simpl; [reflexivity|].
  destruct e; simpl; rewrite IH; reflexivity.
Qed.


Lemma simulate_day_extends solver price_data discharge_energy_capacity efficiency
    discharge_efficiency max_daily_discharged_throughput H min_capacity day_count s log :
  exists events,
    fst (simulate_day solver price_data discharge_energy_capacity efficiency
           discharge_efficiency max_daily_discharged_throughput H min_capacity day_count s log)
    = log ++ events.
Proof.
  unfold simulate_day, mbind, Sim_bind, emit, lift, mret, Sim_ret.
  destruct (set_objective _ _) as [b1|e]; [|eexists; reflexivity].
  destruct (add_storage_constraints _ _ _ _ _ _) as [b2|e]; [|eexists; reflexivity].
  destruct (add_throughput_constraints _ _) as [b3|e]; [|eexists; reflexivity].
  rewrite solve_model_run.
  destruct (collect_output _) as [[hc hd]|e]; [|eexists; rewrite <- app_assoc; reflexivity].
  cbn [fst snd].
  destruct (py_sum hd) as [t|e]; [|eexists; rewrite <- app_assoc; reflexivity].
  destruct (np_scale hc efficiency) as [charged|e];
    [|eexists; rewrite <- app_assoc; reflexivity].
  destruct (np_scale hd discharge_efficiency) as [discharged|e];
    [|eexists; rewrite <- app_assoc; reflexivity].
  destruct (index_last _) as [next|e]; eexists; rewrite <- app_assoc; reflexivity.
Qed.

Lemma simulate_days_extends (body : nat -> SimState -> Sim SimState) days :
  (forall d s log, exists events, fst (body d s log) = log ++ events) ->
  forall s log, exists events, fst (simulate_days body days s log) = log ++ events.
Proof.
  intros Hbody. induction days as [|d days IH]; intros s log.
  - exists []. simpl. unfold mret, Sim_ret. simpl. rewrite app_nil_r. reflexivity.
  - cbn [simulate_days]. unfold mbind, Sim_bind.
    destruct (Hbody d s log) as (ev & Hev).
    destruct (body d s log) as [l1 [s1|e]]; simpl in Hev; subst l1.
    + destruct (IH s1 (log ++ ev)) as (ev' & Hev'). exists (ev ++ ev').
      rewrite Hev', app_assoc. reflexivity.
    + exists ev. reflexivity.
Qed.

Lemma warning_nil st : warnings (warning st) = [] -> st = LpStatusOptimal.
Proof. destruct st; simpl; intros Hw; try discriminate; reflexivity. Qed.

Lemma finish_day_short solver H maxD maxC b3 efficiency discharge_efficiency s :
  wf_battery H maxD maxC b3 -> (H < 24)%nat ->
  finish_day (solved solver b3) efficiency discharge_efficiency s
  = Raise (KeyError "c_t" H).
Proof.
  intros Hwf HH. unfold finish_day.
  rewrite (collect_output_short H maxD maxC) by (try apply solved_wf; assumption).
  reflexivity.
Qed.

(** ** Runs without warnings stay within the limits *)

Lemma run_within_limits solver price_data discharge_energy_capacity efficiency
    discharge_efficiency max_daily_discharged_throughput H min_capacity maxD maxC days :
  solver_sound solver ->
  forall s log log' s',
  wf_battery H maxD maxC (battery s) ->
  simulate_days
    (simulate_day solver price_data discharge_energy_capacity efficiency discharge_efficiency
       max_daily_discharged_throughput H min_capacity) days s log = (log', Ok s') ->
  warnings log' = warnings log ->
  within_limits min_capacity discharge_energy_capacity maxD maxC
    max_daily_discharged_throughput s ->
  within_limits min_capacity discharge_energy_capacity maxD maxC
    max_daily_discharged_throughput s'.
Proof.
  intros Hsound. induction days as [|d days IH]; intros s log log' s' Hwf Hrun Hw Hlim.
  - simpl in Hrun. unfold mret, Sim_ret in Hrun. injection Hrun as <- <-. exact Hlim.
  - cbn [simulate_days] in Hrun. unfold mbind, Sim_bind in Hrun.
    destruct (Nat.eq_dec (length (data_for_this_day price_data d H)) H) as [Hlen|Hlen].
    2:{ rewrite (simulate_day_short _ _ _ _ _ _ _ _ _ _ _ maxD maxC Hwf Hlen) in Hrun.
        discriminate. }
    rewrite (simulate_day_split _ _ _ _ _ _ _ _ _ _ _ maxD maxC Hwf Hlen) in Hrun.
    set (b3 := day_battery price_data discharge_energy_capacity efficiency
                 discharge_efficiency max_daily_discharged_throughput H min_capacity d s)
      in *.
    assert (Hwf3 : wf_battery H maxD maxC b3) by (apply set_model_wf; exact Hwf).
    destruct (Nat.lt_ge_cases H 24) as [HH|HH].
    { rewrite (finish_day_short solver H maxD maxC b3 _ _ _ Hwf3 HH) in Hrun. discriminate. }
    destruct (finish_day _ _ _ _) as [s1|e] eqn:Hfin; [|discriminate].
    destruct (simulate_days_extends _ days
                (simulate_day_extends solver price_data discharge_energy_capacity efficiency
                   discharge_efficiency max_daily_discharged_throughput H min_capacity)
                s1 (log ++ day_events solver b3 d)) as (rest & Hrest).
    rewrite Hrun in Hrest. cbn [fst] in Hrest. subst log'.
    rewrite !warnings_app in Hw.
    rewrite <- (app_nil_r (warnings log)) in Hw at 2. rewrite <- app_assoc in Hw.
    apply app_inv_head in Hw. apply app_eq_nil in Hw. destruct Hw as [Hday Hrestw].
    cbn [day_events warnings] in Hday. apply warning_nil in Hday.
    destruct (Hsound _ _ Hday) as (a & Hfeas & Hvals).
    rewrite (finish_day_bound solver H maxD maxC b3) in Hfin.
    2: exact Hwf3. 2: exact HH.
    2:{ intros i Hi. rewrite !Hvals. split; eexists; reflexivity. }
    injection Hfin as <-.
    apply (IH _ _ _ _ (day_step_wf solver H maxD maxC b3 _ _ s Hwf3) Hrun).
    + rewrite !warnings_app. cbn [day_events warnings]. rewrite Hday. cbn [warning warnings].
      rewrite Hrestw, !app_nil_r. reflexivity.
    + apply (day_step_within_limits solver H maxD maxC b3 (constraints (model (battery s)))
               _ _ _ _ _ s a Hwf3 HH); try assumption.
      apply day_battery_constraints.
Qed.

Lemma simulate_battery_for_within_limits solver sim_length L price_data maxD maxC
    discharge_energy_capacity efficiency discharge_efficiency max_daily_discharged_throughput
    H start_day min_capacity log log' c d soe t :
  solver_sound solver ->
  simulate_battery_for solver sim_length L price_data maxD maxC
    discharge_energy_capacity efficiency discharge_efficiency max_daily_discharged_throughput
    H start_day min_capacity log = (log', Ok (c, d, soe, t)) ->
  warnings log' = warnings log ->
  Forall (fun x => min_capacity <= x /\ x <= discharge_energy_capacity) soe /\
  Forall (fun o => exists q, o = Some q /\ 0 <= q /\ q <= maxC) c /\
  Forall (fun o => exists q, o = Some q /\ 0 <= q /\ q <= maxD) d /\
  Forall (fun x => x <= max_daily_discharged_throughput) t.
Proof.
  intros Hsound Hrun Hw. unfold simulate_battery_for, mbind, Sim_bind in Hrun.
  destruct (simulate_days _ _ _ _) as [l1 [s1|e]] eqn:Hdays; [|discriminate].
  unfold mret, Sim_ret in Hrun. injection Hrun as <- <- <- <- <-.
  apply (run_within_limits solver price_data discharge_energy_capacity efficiency
           discharge_efficiency max_daily_discharged_throughput H min_capacity maxD maxC
           (seq 0 sim_length) Hsound _ _ _ _ (Battery_init_wf H maxD maxC : wf_battery H maxD
              maxC (battery (start_state H maxD maxC L))) Hdays Hw).
  repeat split; constructor.
Qed.

Lemma forallb_false {A} (f : A -> bool) (l : list A) :
  forallb f l = false -> exists x, In x l /\ f x = false.
Proof.
  induction l as [|x l IH]; simpl; [discriminate|].
  destruct (f x) eqn:Hx; simpl.
  - intros Hl. destruct (IH Hl) as (y & Hy & Hfy). exists y. auto.
  - intros _. exists x. auto.
Qed.

Lemma all_bound_true vals :
  all_bound vals = true ->
  forall i, (i < 24)%nat ->
    is_Some (vals (charging_power_c_t i)) /\ is_Some (vals (discharging_power_d_t i)).
Proof.
  unfold all_bound. rewrite forallb_forall. intros Hall i Hi.
  assert (Hin : In i (seq 0 24)) by (apply in_seq; lia).
  specialize (Hall i Hin).
  destruct (vals (charging_power_c_t i)), (vals (discharging_power_d_t i));
    try discriminate; split; eexists; reflexivity.
Qed.

Lemma all_bound_false vals :
  all_bound vals = false ->
  exists i, (i < 24)%nat /\
    (vals (charging_power_c_t i) = None \/ vals (discharging_power_d_t i) = None).
Proof.
  unfold all_bound. intros Hall. apply forallb_false in Hall.
  destruct Hall as (i & Hi & Hf). apply in_seq in Hi. exists i. split; [lia|].
  destruct (vals (charging_power_c_t i)), (vals (discharging_power_d_t i));
    try discriminate; auto.
Qed.

(** ** Splitting a run *)

Lemma simulate_days_app (body : nat -> SimState -> Sim SimState) l1 l2 s log :
  simulate_days body (l1 ++ l2) s log
  = match simulate_days body l1 s log with
    | (log', Ok s') => simulate_days body l2 s' log'
    | (log', Raise e) => (log', Raise e)
    end.
Proof.
  revert s log. induction l1 as [|d l1 IH]; intros s log; [reflexivity|].
  cbn [app simulate_days]. unfold mbind, Sim_bind.
  destruct (body d s log) as [l' [s'|e]]; [apply IH | reflexivity].
Qed.

Lemma run_days_wf solver price_data discharge_energy_capacity efficiency
    discharge_efficiency max_daily_discharged_throughput H min_capacity maxD maxC days s :
  wf_battery H maxD maxC (battery s) ->
  wf_battery H maxD maxC
    (battery (snd (run_days solver price_data discharge_energy_capacity efficiency
                     discharge_efficiency max_daily_discharged_throughput H min_capacity
                     days s))).
Proof.
  revert s. induction days as [|d days IH]; intros s Hwf; cbn [run_days snd]; [exact Hwf|].
  apply IH. apply day_step_wf, set_model_wf. exact Hwf.
Qed.

(** ** The problems of a run *)




(** ** The idle schedule and the models of a day *)

Lemma sum_upto_zero n (f : nat -> Q) : (forall i, f i == 0) -> sum_upto n f == 0.
Proof.
  intros Hf. induction n as [|n IH]; simpl; [reflexivity|]. rewrite IH, Hf. ring.
Qed.

Lemma state_of_energy_idle efficiency discharge_efficiency L k :
  state_of_energy schedule_idle efficiency discharge_efficiency L k == L.
Proof.
  unfold state_of_energy. rewrite sum_upto_zero; [ring|].
  intros i. unfold schedule_idle. ring.
Qed.

Lemma day_battery_feasible price_data discharge_energy_capacity efficiency
    discharge_efficiency max_daily_discharged_throughput H min_capacity day_count s
    maxD maxC a :
  wf_battery H maxD maxC (battery s) ->
  let b3 := day_battery price_data discharge_energy_capacity efficiency discharge_efficiency
              max_daily_discharged_throughput H min_capacity day_count s in
  feasible (battery_variables b3) (model b3) a <->
  within_power a H maxD maxC /\
  Forall (holds a) (constraints (model (battery s))) /\
  (forall k, (1 <= k <= H)%nat ->
     min_capacity <= state_of_energy a efficiency discharge_efficiency (initial_level s) k /\
     state_of_energy a efficiency discharge_efficiency (initial_level s) k
     <= discharge_energy_capacity) /\
  sum_upto H (fun i => a (discharging_power_d_t i)) <= max_daily_discharged_throughput.
Proof.
  intros Hwf b3. unfold feasible.
  assert (Hwf3 : wf_battery H maxD maxC b3) by (apply set_model_wf; exact Hwf).
  rewrite (within_bounds_wf H maxD maxC b3 a Hwf3).
  unfold b3. rewrite day_battery_constraints, !Forall_app.
  rewrite Forall_holds_storage_constraints.
  rewrite <- holds_throughput_constraint.
  split.
  - intros (Hp & Hpre & Hs & Ht). apply Forall_inv in Ht. auto.
  - intros (Hp & Hpre & Hs & Ht).
    split; [exact Hp|]. split; [exact Hpre|]. split; [exact Hs|].
    constructor; [exact Ht | constructor].
Qed.

(** ** The books of a run *)

Lemma entry_app_l (l l' : list (option Q)) i :
  (i < length l)%nat -> entry (l ++ l') i = entry l i.
Proof. intros Hi. unfold entry. rewrite lookup_app_l by exact Hi. reflexivity. Qed.

Lemma entry_app_r (l : list (option Q)) (qs : list Q) i :
  entry (l ++ map Some qs) (length l + i) = nth i qs 0.
Proof.
  unfold entry. rewrite lookup_app_r by lia.
  replace (length l + i - length l)%nat with i by lia.
  rewrite list_lookup_fmap, nth_lookup. destruct (qs !! i); reflexivity.
Qed.

Lemma sum_upto_app n m (f : nat -> Q) :
  sum_upto (n + m) f == sum_upto n f + sum_upto m (fun i => f (n + i)%nat).
Proof.
  induction m as [|m IH].
  - rewrite Nat.add_0_r. simpl. ring.
  - rewrite Nat.add_succ_r. simpl. rewrite IH. ring.
Qed.

Lemma fold_left_Qplus_nth (l : list Q) :
  fold_left Qplus l 0 == sum_upto (length l) (fun i => nth i l 0).
Proof.
  induction l as [|x l IH] using rev_ind; [reflexivity|].
  rewrite fold_left_app, length_app, Nat.add_comm. simpl.
  rewrite IH, app_nth2, Nat.sub_diag by lia. simpl.
  apply Qplus_comp; [|reflexivity].
  apply sum_upto_ext. intros i Hi. rewrite app_nth1 by exact Hi. reflexivity.
Qed.

Lemma last_nth (l : list Q) x : last l = Some x -> x = nth (length l - 1) l 0.
Proof.
  intros Hl. rewrite last_lookup in Hl. rewrite nth_lookup.
  replace (length l - 1)%nat with (pred (length l)) by lia. rewrite Hl. reflexivity.
Qed.

Lemma start_state_balanced H maxD maxC L efficiency discharge_efficiency :
  balanced L efficiency discharge_efficiency (start_state H maxD maxC L).
Proof.
  unfold balanced. simpl. repeat split; try reflexivity; try ring. intros j Hj. lia.
Qed.

Lemma day_step_balanced solver b3 L0 efficiency discharge_efficiency s :
  balanced L0 efficiency discharge_efficiency s ->
  balanced L0 efficiency discharge_efficiency
    (day_step solver b3 efficiency discharge_efficiency s).
Proof.
  intros (Hc & Hd & Hsoe & Hlevel & Hthr).
  set (vals := snd (solver (battery_variables b3) (model b3))).
  set (cv := day_values vals charging_power_c_t).
  set (dv := day_values vals discharging_power_d_t).
  set (traj := day_trajectory (initial_level s) efficiency discharge_efficiency cv dv).
  assert (Hcv : length cv = 24%nat) by apply day_values_length.
  assert (Hdv : length dv = 24%nat) by apply day_values_length.
  assert (Htraj : length traj = 24%nat).
  { unfold traj. rewrite day_trajectory_length, Hcv, Hdv. reflexivity. }
  set (m := length (all_hourly_state_of_energy s)) in *.
  set (net := fun i => entry (all_hourly_charges s) i * efficiency
                       - entry (all_hourly_discharges s) i * discharge_efficiency) in *.
  set (net' := fun i => entry (all_hourly_charges s ++ map Some cv) i * efficiency
                        - entry (all_hourly_discharges s ++ map Some dv) i
                          * discharge_efficiency).
  assert (Hold : forall i, (i < m)%nat -> net' i == net i).
  { intros i Hi. unfold net', net. rewrite !entry_app_l by lia. reflexivity. }
  assert (Hnew : forall i, net' (m + i)%nat
                           == nth i cv 0 * efficiency - nth i dv 0 * discharge_efficiency).
  { intros i. unfold net'. rewrite <- Hc at 1. rewrite entry_app_r.
    rewrite <- Hd. rewrite entry_app_r. reflexivity. }
  assert (Hsum : forall k, (k <= 24)%nat ->
            initial_level s
            + sum_upto k (fun i => nth i cv 0 * efficiency - nth i dv 0 * discharge_efficiency)
            == L0 + sum_upto (m + k) net').
  { intros k Hk. rewrite sum_upto_app, Hlevel.
    rewrite (sum_upto_ext m net' net) by exact Hold.
    rewrite (sum_upto_ext k (fun i => net' (m + i)%nat)
               (fun i => nth i cv 0 * efficiency - nth i dv 0 * discharge_efficiency))
      by (intros; apply Hnew).
    ring. }
  assert (Hentry : forall k, (k < 24)%nat ->
            nth k traj 0 == L0 + sum_upto (m + S k) net').
  { intros k Hk. unfold traj. rewrite day_trajectory_spec by lia. apply Hsum. lia. }
  unfold balanced, day_step. fold vals cv dv traj.
  cbn [all_hourly_charges all_hourly_discharges all_hourly_state_of_energy
       all_daily_discharge_throughput initial_level].
  fold net'. rewrite !length_app, !length_map, Hcv, Hdv, Htraj. fold m.
  split; [lia|]. split; [lia|]. split; [|split].
  - intros j Hj. destruct (Nat.lt_ge_cases j m) as [Hjm|Hjm].
    + rewrite app_nth1 by exact Hjm. rewrite Hsoe by exact Hjm.
      apply Qplus_comp; [reflexivity|]. apply sum_upto_ext. intros i Hi.
      symmetry. apply Hold. lia.
    + rewrite app_nth2 by exact Hjm. fold m.
      rewrite Hentry by lia. replace (m + S (j - m))%nat with (S j) by lia. reflexivity.
  - destruct (last_nonempty traj) as [x Hx]; [lia|]. rewrite Hx. cbn [default from_option id].
    rewrite (last_nth traj x Hx), Htraj. cbn [Nat.sub].
    rewrite Hentry by lia. replace (m + 24)%nat with (m + 24)%nat by lia. reflexivity.
  - rewrite fold_left_app. cbn [fold_left]. rewrite Hthr, fold_left_Qplus_nth, Hdv.
    rewrite sum_upto_app.
    rewrite (sum_upto_ext m (entry (all_hourly_discharges s ++ map Some dv))
               (entry (all_hourly_discharges s)))
      by (intros i Hi; rewrite entry_app_l by lia; reflexivity).
    apply Qplus_comp; [reflexivity|].
    apply sum_upto_ext. intros i Hi. rewrite <- Hd, entry_app_r. reflexivity.
Qed.

Lemma run_days_balanced solver price_data discharge_energy_capacity efficiency
    discharge_efficiency max_daily_discharged_throughput H min_capacity L0 days s :
  balanced L0 efficiency discharge_efficiency s ->
  balanced L0 efficiency discharge_efficiency
    (snd (run_days solver price_data discharge_energy_capacity efficiency
            discharge_efficiency max_daily_discharged_throughput H min_capacity days s)).
Proof.
  revert s. induction days as [|d days IH]; intros s Hs; cbn [run_days snd]; [exact Hs|].
  apply IH, day_step_balanced, Hs.
Qed.

(** ** The first window of the prices *)

Lemma data_for_this_day_first_window price_data H :
  data_for_this_day (firstn H price_data) 0 H = data_for_this_day price_data 0 H.
Proof. unfold data_for_this_day. cbn [Nat.mul skipn]. apply take_idemp. Qed.

(** [simulate_battery] reads the first window of the prices only. *)
Lemma simulate_battery_first_window solver L price_data maxD maxC
    discharge_energy_capacity efficiency discharge_efficiency max_daily_discharged_throughput
    H start_day min_capacity log :
  simulate_battery solver L (firstn H price_data) maxD maxC discharge_energy_capacity
    efficiency discharge_efficiency max_daily_discharged_throughput H start_day
    min_capacity log
  = simulate_battery solver L price_data maxD maxC discharge_energy_capacity efficiency
      discharge_efficiency max_daily_discharged_throughput H start_day min_capacity log.
Proof.
  unfold simulate_battery, simulate_battery_for. cbn [seq simulate_days].
  unfold simulate_day. rewrite data_for_this_day_first_window. reflexivity.
Qed.

Lemma giving_up_solver_sound cands : solver_sound (giving_up_solver cands).
Proof.
  intros vs p. unfold giving_up_solver.
  destruct (best_candidate vs p cands) as [a|] eqn:Hbest; cbn [fst snd]; intros Hst.
  - exists a. split; [exact (best_candidate_feasible _ _ _ _ Hbest) | reflexivity].
  - discriminate Hst.
Qed.

(** ** A day that completes *)

(** A pass of the loop body returns only when the window of prices is
    complete, the horizon covers the 24 hours read back and the solver left a
    number in each of their variables; it then took the step [day_step]. *)
Lemma simulate_day_Ok_inv solver price_data discharge_energy_capacity efficiency
    discharge_efficiency max_daily_discharged_throughput H min_capacity day_count s log
    log1 s' maxD maxC :
  wf_battery H maxD maxC (battery s) ->
  simulate_day solver price_data discharge_energy_capacity efficiency discharge_efficiency
    max_daily_discharged_throughput H min_capacity day_count s log = (log1, Ok s') ->
  let b3 := day_battery price_data discharge_energy_capacity efficiency discharge_efficiency
              max_daily_discharged_throughput H min_capacity day_count s in
  (24 <= H)%nat /\
  length (data_for_this_day price_data day_count H) = H /\
  all_bound (snd (solver (battery_variables b3) (model b3))) = true /\
  log1 = log ++ day_events solver b3 day_count /\
  s' = day_step solver b3 efficiency discharge_efficiency s.
Proof.
  intros Hwf Hrun b3.
  destruct (Nat.eq_dec (length (data_for_this_day price_data day_count H)) H) as [Hlen|Hlen].
  2:{ rewrite (simulate_day_short _ _ _ _ _ _ _ _ _ _ _ maxD maxC Hwf Hlen) in Hrun.
      discriminate Hrun. }
  rewrite (simulate_day_split _ _ _ _ _ _ _ _ _ _ _ maxD maxC Hwf Hlen) in Hrun.
  fold b3 in Hrun.
  assert (Hwf3 : wf_battery H maxD maxC b3) by (apply set_model_wf; exact Hwf).
  destruct (le_lt_dec 24 H) as [HH|HH].
  2:{ rewrite (finish_day_short solver H maxD maxC b3 _ _ _ Hwf3 HH) in Hrun.
      discriminate Hrun. }
  destruct (all_bound (snd (solver (battery_variables b3) (model b3)))) eqn:Hall.
  - rewrite (finish_day_bound solver H maxD maxC b3 _ _ _ Hwf3 HH
               (all_bound_true _ Hall)) in Hrun.
    injection Hrun as <- <-. repeat split; assumption.
  - destruct (all_bound_false _ Hall) as (i & Hi & Hnone).
    rewrite (finish_day_unbound solver H maxD maxC b3 _ _ _ i Hwf3 HH Hi Hnone) in Hrun.
    discriminate Hrun.
Qed.

(** * Main results *)

(** C1. On a battery of horizon [H], [add_storage_constraints] succeeds and
    appends to the model, for every prefix length [k] from 1 to [H], the
    lower constraint and the upper constraint on the cumulative state of
    energy: [min_capacity <= initial_level + sum_{i<k} (charge i * efficiency
    - discharge i * discharge_efficiency) <= discharge_energy_capacity], and
    nothing else.  An assignment that satisfies the constraints of the model
    therefore keeps the state of energy within the two capacities at the end
    of every hour. *)
Theorem C1_storage_constraints_bound_every_prefix H maxD maxC b
    efficiency min_capacity discharge_energy_capacity discharge_efficiency initial_level :
  wf_battery H maxD maxC b ->
  exists b',
    add_storage_constraints b efficiency min_capacity discharge_energy_capacity
      discharge_efficiency initial_level = Ok b' /\
    b' = set_model b
           (add_constraints (model b)
              (map (storage_lower efficiency discharge_efficiency initial_level min_capacity)
                 (seq 1 H) ++
               map (storage_upper efficiency discharge_efficiency initial_level
                      discharge_energy_capacity) (seq 1 H))) /\
    (forall a k,
       (holds a (storage_lower efficiency discharge_efficiency initial_level min_capacity k)
        <-> min_capacity
            <= state_of_energy a efficiency discharge_efficiency initial_level k) /\
       (holds a (storage_upper efficiency discharge_efficiency initial_level
                   discharge_energy_capacity k)
        <-> state_of_energy a efficiency discharge_efficiency initial_level k
            <= discharge_energy_capacity)) /\
    (forall a, Forall (holds a) (constraints (model b')) ->
       forall k, (1 <= k <= H)%nat ->
         min_capacity <= state_of_energy a efficiency discharge_efficiency initial_level k /\
         state_of_energy a efficiency discharge_efficiency initial_level k
         <= discharge_energy_capacity).
Proof.
  intros Hwf. eexists. split; [apply (add_storage_constraints_wf H maxD maxC); exact Hwf|].
  split; [reflexivity|]. split.
  - intros a k. split; [apply holds_storage_lower | apply holds_storage_upper].
  - intros a Hall. cbn [model set_model constraints add_constraints] in Hall.
    apply Forall_app in Hall. destruct Hall as [_ Hall].
    apply Forall_holds_storage_constraints. exact Hall.
Qed.

Lemma C1_witness :
  wf_battery 2 1 1 (Battery_init 2 1 1) /\
  is_Ok (add_storage_constraints (Battery_init 2 1 1) (9 # 10) 0 5 (9 # 10) 1).
Proof.
  split; [apply Battery_init_wf|].
  destruct (C1_storage_constraints_bound_every_prefix 2 1 1 (Battery_init 2 1 1)
              (9 # 10) 0 5 (9 # 10) 1 (Battery_init_wf 2 1 1)) as (b' & Heq & _).
  rewrite Heq. exact I.
Defined.

(** C2 as the code has it.  The loop of [simulate_battery] runs the number
    of periods its bound fixes ([range(1)], "Set to sim length"): one.
    Whenever a pass of the loop body completes, the trajectory it appends is
    the level the period began with plus the running sum of the net hourly
    changes (charge times efficiency minus discharge times discharge
    efficiency, at the end of each hour), and the level is replaced once, by
    the last entry of that trajectory.  A run of [simulate_battery] that
    completes returns the trajectory of period 1 alone, 24 entries from the
    seed; the run reads the first window of the prices only, so on price
    data of several windows it is the run on the first window.  The run
    completes whenever the solver leaves a number in every variable, the
    horizon is at least 24 hours and the data holds a price for each hour of
    it. *)
Theorem C2_period_trajectory_and_first_window solver L price_data maxD maxC
    discharge_energy_capacity efficiency discharge_efficiency max_daily_discharged_throughput
    H start_day min_capacity log :
  (forall day_count s log0 log1 s',
     wf_battery H maxD maxC (battery s) ->
     simulate_day solver price_data discharge_energy_capacity efficiency
       discharge_efficiency max_daily_discharged_throughput H min_capacity
       day_count s log0 = (log1, Ok s') ->
     exists cv dv trajectory,
       all_hourly_charges s' = all_hourly_charges s ++ map Some cv /\
       all_hourly_discharges s' = all_hourly_discharges s ++ map Some dv /\
       all_hourly_state_of_energy s' = all_hourly_state_of_energy s ++ trajectory /\
       length cv = 24%nat /\ length dv = 24%nat /\ length trajectory = 24%nat /\
       (forall k, (k < 24)%nat ->
          nth k trajectory 0
          == initial_level s
             + sum_upto (S k)
                 (fun i => nth i cv 0 * efficiency - nth i dv 0 * discharge_efficiency)) /\
       last trajectory = Some (initial_level s')) /\
  (forall log' c d soe t,
     simulate_battery solver L price_data maxD maxC discharge_energy_capacity efficiency
       discharge_efficiency max_daily_discharged_throughput H start_day min_capacity log
     = (log', Ok (c, d, soe, t)) ->
     length soe = 24%nat /\
     forall k, (k < 24)%nat ->
       nth k soe 0
       == L + sum_upto (S k)
                (fun i => entry c i * efficiency - entry d i * discharge_efficiency)) /\
  simulate_battery solver L (firstn H price_data) maxD maxC discharge_energy_capacity
    efficiency discharge_efficiency max_daily_discharged_throughput H start_day
    min_capacity log
  = simulate_battery solver L price_data maxD maxC discharge_energy_capacity efficiency
      discharge_efficiency max_daily_discharged_throughput H start_day min_capacity log /\
  (solver_binds solver -> (24 <= H)%nat -> (H <= length price_data)%nat ->
   exists log' c d soe t,
     simulate_battery solver L price_data maxD maxC discharge_energy_capacity efficiency
       discharge_efficiency max_daily_discharged_throughput H start_day min_capacity log
     = (log', Ok (c, d, soe, t))).
Proof.
  split; [|split; [|split]].
  - intros day_count s log0 log1 s' Hwf Hday.
    destruct (simulate_day_Ok_inv _ _ _ _ _ _ _ _ _ _ _ _ _ maxD maxC Hwf Hday)
      as (_ & _ & _ & _ & ->).
    set (b3 := day_battery price_data discharge_energy_capacity efficiency
                 discharge_efficiency max_daily_discharged_throughput H min_capacity
                 day_count s).
    set (vals := snd (solver (battery_variables b3) (model b3))).
    exists (day_values vals charging_power_c_t), (day_values vals discharging_power_d_t),
           (day_trajectory (initial_level s) efficiency discharge_efficiency
              (day_values vals charging_power_c_t) (day_values vals discharging_power_d_t)).
    do 3 (split; [reflexivity|]).
    rewrite day_trajectory_length, !day_values_length.
    do 3 (split; [reflexivity|]).
    split.
    + intros k Hk. apply day_trajectory_spec; rewrite day_values_length; exact Hk.
    + apply (day_step_level solver b3 efficiency discharge_efficiency s).
  - intros log' c d soe t Hrun.
    unfold simulate_battery, simulate_battery_for in Hrun. cbn [seq simulate_days] in Hrun.
    unfold mbind at 1 2 in Hrun. unfold Sim_bind in Hrun.
    fold (start_state H maxD maxC L) in Hrun.
    destruct (simulate_day solver price_data discharge_energy_capacity efficiency
                discharge_efficiency max_daily_discharged_throughput H min_capacity 0
                (start_state H maxD maxC L) log) as [log1 [s'|e]] eqn:Hday;
      [|discriminate Hrun].
    injection Hrun as _ <- <- <- <-.
    destruct (simulate_day_Ok_inv _ _ _ _ _ _ _ _ _ _ _ _ _ maxD maxC
                (Battery_init_wf H maxD maxC : wf_battery H maxD maxC
                   (battery (start_state H maxD maxC L))) Hday)
      as (_ & _ & _ & _ & ->).
    set (b3 := day_battery price_data discharge_energy_capacity efficiency
                 discharge_efficiency max_daily_discharged_throughput H min_capacity 0
                 (start_state H maxD maxC L)).
    destruct (day_step_balanced solver b3 L efficiency discharge_efficiency
                (start_state H maxD maxC L)
                (start_state_balanced H maxD maxC L efficiency discharge_efficiency))
      as (_ & _ & Hsoe & _).
    assert (He : length (all_hourly_state_of_energy
                           (day_step solver b3 efficiency discharge_efficiency
                              (start_state H maxD maxC L))) = 24%nat).
    { cbn [day_step all_hourly_state_of_energy start_state app].
      rewrite day_trajectory_length, !day_values_length. reflexivity. }
    split; [exact He|].
    intros k Hk. apply Hsoe. rewrite He. exact Hk.
  - apply simulate_battery_first_window.
  - intros Hb HH Hdata. eexists _, _, _, _, _.
    unfold simulate_battery. apply simulate_battery_for_ok; [assumption | assumption | lia].
Qed.

Lemma C2_witness :
  solver_binds scenario_solver /\
  (24 <= length two_day_prices)%nat /\
  exists log' c d soe t,
    simulate_battery scenario_solver 2 two_day_prices 2 2 2 1 1 100 24%nat None 0 []
    = (log', Ok (c, d, soe, t)) /\
    length soe = 24%nat /\
    simulate_battery scenario_solver 2 (firstn 24 two_day_prices) 2 2 2 1 1 100 24%nat
      None 0 []
    = (log', Ok (c, d, soe, t)).
Proof.
  split; [apply candidate_solver_binds|]. split; [vm_compute; lia|].
  destruct (C2_period_trajectory_and_first_window scenario_solver 2 two_day_prices 2 2 2 1 1
              100 24%nat None 0 [])
    as (_ & Hsoe & Hfirst & Hcompletes).
  destruct Hcompletes as (log' & c & d & soe & t & Hrun);
    [apply candidate_solver_binds | lia | vm_compute; lia |].
  exists log', c, d, soe, t. split; [exact Hrun|].
  split; [apply (Hsoe _ _ _ _ _ Hrun)|].
  rewrite Hfirst. exact Hrun.
Defined.

(** C2 as stated fails: with price data for two periods (48 hours),
    [simulate_battery] returns the trajectory of period 1 alone; the hours of
    period 2 are missing from it, while a run seeded with the last entry of
    period 1 on the second window yields 24 entries. *)
Lemma C2_counterexample :
  length two_day_prices = 48%nat /\
  exists log c d soe t L1 logf cf df soef tf,
    simulate_battery scenario_solver 2 two_day_prices 2 2 2 1 1 100 24%nat None 0 []
    = (log, Ok (c, d, soe, t)) /\
    last soe = Some L1 /\
    simulate_battery scenario_solver L1 (skipn 24 two_day_prices) 2 2 2 1 1 100 24%nat
      None 0 []
    = (logf, Ok (cf, df, soef, tf)) /\
    skipn 24 soe = [] /\
    length soef = 24%nat /\
    skipn 24 soe <> soef.
Proof.
  split; [reflexivity|].
  eexists _, _, _, _, _, _, _, _, _, _, _.
  split; [vm_compute; reflexivity|].
  split; [vm_compute; reflexivity|].
  split; [vm_compute; reflexivity|].
  split; [reflexivity|]. split; [reflexivity|].
  intros Heq. apply (f_equal (@length Q)) in Heq. simpl in Heq. discriminate Heq.
Qed.

(** C3 as the code has it.  [collect_output] reads the first 24 hours,
    whatever the horizon: for a horizon of at least 24 hours it returns the
    values of charge 0..23 and discharge 0..23, two sequences of length 24;
    for a shorter horizon it raises [KeyError].  A simulation that completes
    returns hourly sequences of 24 entries per simulated day. *)
Theorem C3_collect_output_returns_24_hours H maxD maxC b :
  wf_battery H maxD maxC b ->
  ((24 <= H)%nat ->
   exists cs ds,
     collect_output b = Ok (cs, ds) /\ length cs = 24%nat /\ length ds = 24%nat /\
     forall i, (i < 24)%nat ->
       cs !! i = Some (value_at (charge b) i) /\ ds !! i = Some (value_at (discharge b) i)) /\
  ((H < 24)%nat -> collect_output b = Raise (KeyError "c_t" H)) /\
  (forall solver sim_length initial_level price_data discharge_energy_capacity efficiency
          discharge_efficiency max_daily_discharged_throughput start_day min_capacity log,
     solver_binds solver ->
     (24 <= H)%nat ->
     (24 * sim_length + H <= length price_data + 24)%nat ->
     exists log' c d soe t,
       simulate_battery_for solver sim_length initial_level price_data maxD maxC
         discharge_energy_capacity efficiency discharge_efficiency
         max_daily_discharged_throughput H start_day min_capacity log
       = (log', Ok (c, d, soe, t)) /\
       length c = (24 * sim_length)%nat /\
       length d = (24 * sim_length)%nat /\
       length soe = (24 * sim_length)%nat).
Proof.
  intros Hwf. split; [|split].
  - intros HH. eexists _, _. split; [apply (collect_output_wf H maxD maxC); assumption|].
    rewrite !length_map, length_seq. split; [reflexivity|]. split; [reflexivity|].
    intros i Hi. rewrite !list_lookup_fmap, lookup_seq_lt by exact Hi. split; reflexivity.
  - intros HH. apply (collect_output_short H maxD maxC); assumption.
  - intros solver n L pd cap eff deff thr sd mn log Hb HH Hdata.
    eexists _, _, _, _, _. split.
    + apply simulate_battery_for_ok; assumption.
    + destruct (run_days_lengths solver pd cap eff deff thr H mn (seq 0 n)
                  (start_state H maxD maxC L)) as (Hc & Hd & He & _).
      rewrite Hc, Hd, He, length_seq. simpl. repeat split; lia.
Qed.

Lemma C3_witness :
  wf_battery 36 2 2 (Battery_init 36 2 2) /\
  (exists cs ds, collect_output (Battery_init 36 2 2) = Ok (cs, ds) /\ length cs = 24%nat).
Proof.
  split; [apply Battery_init_wf|].
  destruct (proj1 (C3_collect_output_returns_24_hours 36 2 2 (Battery_init 36 2 2)
                     (Battery_init_wf 36 2 2))) as (cs & ds & Heq & Hc & _); [lia|].
  exists cs, ds. split; assumption.
Defined.

(** C3 as stated fails: a battery of horizon 36, prepared for 36 hours of
    flat prices and solved (with status [Optimal]), yields two sequences of
    length 24, not 36. *)
Lemma C3_counterexample :
  exists b3 cs ds,
    prepare_day (Battery_init 36 2 2) (repeat 1 36) 1 0 2 1 2 100 = Ok b3 /\
    time_horizon (solved scenario_solver b3) = 36%nat /\
    status (model (solved scenario_solver b3)) = LpStatusOptimal /\
    collect_output (solved scenario_solver b3) = Ok (cs, ds) /\
    length cs = 24%nat /\ length ds = 24%nat /\
    length cs <> time_horizon (solved scenario_solver b3).
Proof.
  eexists _, _, _. split.
  { apply (prepare_day_wf 36 2 2); [apply Battery_init_wf | reflexivity]. }
  split; [reflexivity|].
  split; [vm_compute; reflexivity|].
  split.
  { apply (collect_output_wf 36 2 2); [|lia].
    apply solved_wf, set_model_wf, Battery_init_wf. }
  rewrite !length_map, length_seq. cbn [time_horizon solved set_model Battery_init].
  repeat split; lia.
Qed.


(** C5 as the code has it.  The number of days simulated is the bound of the
    loop, which the source fixes ([range(1)], to be "set to sim length"): the
    days 0, 1, ... are run in order, one call to the solver each, and the
    throughput sequence returned has one entry per day of the bound, however
    many more windows the price data holds.  As written, [simulate_battery]
    runs one day. *)
Theorem C5_days_fixed_by_loop_bound solver sim_length initial_level price_data maxD maxC
    discharge_energy_capacity efficiency discharge_efficiency max_daily_discharged_throughput
    H start_day min_capacity log :
  solver_binds solver ->
  (24 <= H)%nat ->
  (24 * sim_length + H <= length price_data + 24)%nat ->
  exists events c d soe t,
    simulate_battery_for solver sim_length initial_level price_data maxD maxC
      discharge_energy_capacity efficiency discharge_efficiency
      max_daily_discharged_throughput H start_day min_capacity log
    = (log ++ events, Ok (c, d, soe, t)) /\
    length t = sim_length /\
    cycles events = seq 0 sim_length /\
    solver_calls events = sim_length /\
    (sim_length = 1%nat ->
     simulate_battery solver initial_level price_data maxD maxC
       discharge_energy_capacity efficiency discharge_efficiency
       max_daily_discharged_throughput H start_day min_capacity log
     = (log ++ events, Ok (c, d, soe, t))).
Proof.
  intros Hb HH Hdata. eexists _, _, _, _, _. split.
  { apply simulate_battery_for_ok; assumption. }
  destruct (run_days_lengths solver price_data discharge_energy_capacity efficiency
              discharge_efficiency max_daily_discharged_throughput H min_capacity
              (seq 0 sim_length) (start_state H maxD maxC initial_level))
    as (_ & _ & _ & Ht & Hs).
  rewrite Ht, Hs, run_days_cycles, length_seq. simpl.
  repeat split; try reflexivity.
  intros ->. unfold simulate_battery. apply simulate_battery_for_ok; assumption.
Qed.

Lemma C5_witness :
  solver_binds scenario_solver /\
  exists events c d soe t,
    simulate_battery scenario_solver 2 two_day_prices 2 2 2 1 1 100 24%nat None 0 []
    = (events, Ok (c, d, soe, t)) /\ length t = 1%nat.
Proof.
  split; [apply candidate_solver_binds|].
  destruct (C5_days_fixed_by_loop_bound scenario_solver 1 2 two_day_prices 2 2 2 1 1 100
              24%nat None 0 [] (candidate_solver_binds _))
    as (events & c & d & soe & t & _ & Ht & _ & _ & Hsim); [lia | simpl; lia |].
  exists events, c, d, soe, t. split; [apply Hsim; reflexivity | exact Ht].
Defined.

(** C5 as stated fails: with price data for two full days, [simulate_battery]
    simulates one day and returns a throughput sequence of length one. *)
Lemma C5_counterexample :
  length two_day_prices = 48%nat /\
  exists events c d soe t,
    simulate_battery scenario_solver 2 two_day_prices 2 2 2 1 1 100 24%nat None 0 []
    = (events, Ok (c, d, soe, t)) /\
    solver_calls events = 1%nat /\ length t = 1%nat /\ length t <> 2%nat.
Proof.
  split; [reflexivity|].
  eexists _, _, _, _, _. split; [vm_compute; reflexivity|].
  split; [vm_compute; reflexivity|]. split; [reflexivity | simpl; lia].
Qed.

(** C6 as the code has it.  [set_objective] raises exactly when the number
    of prices differs from the horizon of the battery; the exception is
    Python's [AssertionError], with the message of the source, and no other
    class of exception leaves the method.  With one price per hour it raises
    nothing and attaches the objective: the expression whose value is the
    profit of the prices, with the constraints and the variables left as
    they were.  In the driver the error ends the day right after the line
    "Trying cycle", before the solver has been called. *)
Theorem C6_set_objective_checks_length H maxD maxC b prices :
  wf_battery H maxD maxC b ->
  (length prices <> H <->
   set_objective b prices
   = Raise (AssertionError "Error: need one price for each hour in time horizon")) /\
  (forall e, set_objective b prices = Raise e -> class_name e = "AssertionError"%string) /\
  (length prices = H <->
   exists b' e,
     set_objective b prices = Ok b' /\
     objective (model b') = Some e /\
     (forall a, eval a e == profit a prices H) /\
     constraints (model b') = constraints (model b) /\
     charge b' = charge b /\ discharge b' = discharge b) /\
  (forall solver price_data discharge_energy_capacity efficiency discharge_efficiency
          max_daily_discharged_throughput min_capacity day_count s log,
     battery s = b ->
     data_for_this_day price_data day_count H = prices ->
     length prices <> H ->
     let r := simulate_day solver price_data discharge_energy_capacity efficiency
                discharge_efficiency max_daily_discharged_throughput H min_capacity
                day_count s log in
     r = (log ++ [Print_trying_cycle day_count],
          Raise (AssertionError "Error: need one price for each hour in time horizon")) /\
     solver_calls (fst r) = solver_calls log).
Proof.
  intros Hwf.
  assert (Hno : length prices <> H ->
            set_objective b prices
            = Raise (AssertionError "Error: need one price for each hour in time horizon")).
  { intros Hne. apply set_objective_mismatch. rewrite (wf_horizon _ _ _ _ Hwf). exact Hne. }
  assert (Hyes : length prices = H ->
            set_objective b prices
            = Ok (set_model b (LpProblem_iadd_objective (model b)
                                 (objective_expression prices H)))).
  { intros Heq. apply (set_objective_wf H maxD maxC); assumption. }
  split; [|split; [|split]].
  - split; [exact Hno|]. intros Hr Heq. rewrite (Hyes Heq) in Hr. discriminate Hr.
  - intros e He. destruct (Nat.eq_dec (length prices) H) as [Heq|Hne].
    + rewrite (Hyes Heq) in He. discriminate He.
    + rewrite (Hno Hne) in He. injection He as <-. reflexivity.
  - split.
    + intros Heq. eexists _, _. split; [exact (Hyes Heq)|].
      split; [reflexivity|].
      split; [intros a; apply eval_objective_expression|].
      repeat split.
    + intros (b' & e & Hok & _).
      destruct (Nat.eq_dec (length prices) H) as [Heq|Hne]; [exact Heq|].
      rewrite (Hno Hne) in Hok. discriminate Hok.
  - intros solver price_data cap eff deff thr min_capacity day_count s log Hs Hp Hne r.
    assert (Hr : r = (log ++ [Print_trying_cycle day_count],
                      Raise (AssertionError
                               "Error: need one price for each hour in time horizon"))).
    { unfold r, simulate_day, mbind, Sim_bind, emit, lift. rewrite Hs, Hp, (Hno Hne).
      reflexivity. }
    split; [exact Hr|]. rewrite Hr. cbn [fst]. rewrite solver_calls_app. simpl. lia.
Qed.

Lemma C6_witness :
  wf_battery 2 1 1 (Battery_init 2 1 1) /\
  set_objective (Battery_init 2 1 1) [30; 40; 50]
  = Raise (AssertionError "Error: need one price for each hour in time horizon") /\
  exists b' e,
    set_objective (Battery_init 2 1 1) [30; 40] = Ok b' /\
    objective (model b') = Some e /\
    forall a, eval a e == profit a [30; 40] 2.
Proof.
  split; [apply Battery_init_wf|]. split.
  - apply (proj1 (C6_set_objective_checks_length 2 1 1 (Battery_init 2 1 1) [30; 40; 50]
                    (Battery_init_wf 2 1 1))).
    simpl. lia.
  - destruct (C6_set_objective_checks_length 2 1 1 (Battery_init 2 1 1) [30; 40]
                (Battery_init_wf 2 1 1)) as (_ & _ & Hattach & _).
    destruct (proj1 Hattach eq_refl) as (b' & e & Hok & Hobj & Heval & _).
    exists b', e. split; [exact Hok|]. split; [exact Hobj | exact Heval].
Defined.

(** C6 as stated fails: on a battery of horizon 2 given three prices,
    [set_objective] raises an exception of the class [AssertionError]; the
    code has no class [InputShapeError]. *)
Lemma C6_counterexample :
  exists e,
    set_objective (Battery_init 2 1 1) [30; 40; 50] = Raise e /\
    class_name e = "AssertionError"%string /\
    class_name e <> "InputShapeError"%string.
Proof.
  eexists. split; [reflexivity|]. split; [reflexivity|]. discriminate.
Qed.

(** C7 as the code has it.  [solve_model] returns for every status the
    solver reports: it logs the call and, when the status is not [Optimal],
    one warning line naming the status.  The driver does not look at the
    status.  What it does next depends on the values alone: when the solver
    left a number in every charge and discharge variable of the first 24
    hours the day completes and the loop moves on; when it left one unbound
    the day, and with it the run, ends with a [TypeError].  With a storage
    capacity below the minimum capacity no assignment satisfies the
    constraints, so a sound solver reports a status other than [Optimal] and
    the warning is printed. *)
Theorem C7_non_optimal_status_is_a_warning solver H maxD maxC price_data
    discharge_energy_capacity efficiency discharge_efficiency
    max_daily_discharged_throughput min_capacity day_count s log :
  wf_battery H maxD maxC (battery s) ->
  let b3 := day_battery price_data discharge_energy_capacity efficiency discharge_efficiency
              max_daily_discharged_throughput H min_capacity day_count s in
  let st := fst (solver (battery_variables b3) (model b3)) in
  let vals := snd (solver (battery_variables b3) (model b3)) in
  let body := simulate_day solver price_data discharge_energy_capacity efficiency
                discharge_efficiency max_daily_discharged_throughput H min_capacity in
  (forall b log0,
     exists b4,
       solve_model solver b log0
       = (log0 ++ Solver_call (battery_variables b) (model b)
               :: warning (fst (solver (battery_variables b) (model b))),
          Ok b4) /\
       status (model b4) = fst (solver (battery_variables b) (model b))) /\
  (st <> LpStatusOptimal -> warning st = [Print_warning (LpStatus_name st)]) /\
  ((24 <= H)%nat ->
   (24 * day_count + H <= length price_data)%nat ->
   body day_count s log
   = (log ++ day_events solver b3 day_count,
      if all_bound vals
      then Ok (day_step solver b3 efficiency discharge_efficiency s)
      else Raise TypeError) /\
   forall days,
     simulate_days body (day_count :: days) s log
     = if all_bound vals
       then simulate_days body days (day_step solver b3 efficiency discharge_efficiency s)
              (log ++ day_events solver b3 day_count)
       else (log ++ day_events solver b3 day_count, Raise TypeError)) /\
  (solver_sound solver -> (1 <= H)%nat -> discharge_energy_capacity < min_capacity ->
   st <> LpStatusOptimal /\
   In (Print_warning (LpStatus_name st)) (day_events solver b3 day_count)).
Proof.
  intros Hwf b3 st vals body.
  assert (Hwarn : st <> LpStatusOptimal -> warning st = [Print_warning (LpStatus_name st)]).
  { intros Hst. destruct st; [reflexivity | contradiction | reflexivity ..]. }
  split; [|split; [exact Hwarn | split]].
  - intros b log0. exists (solved solver b). split; [apply solve_model_run | reflexivity].
  - intros HH Hdata.
    assert (Hwf3 : wf_battery H maxD maxC b3) by (apply set_model_wf; exact Hwf).
    assert (Hday : body day_count s log
                   = (log ++ day_events solver b3 day_count,
                      if all_bound vals
                      then Ok (day_step solver b3 efficiency discharge_efficiency s)
                      else Raise TypeError)).
    { unfold body.
      rewrite (simulate_day_split _ _ _ _ _ _ _ _ _ _ _ maxD maxC Hwf
                 (data_for_this_day_length _ _ _ Hdata)).
      fold b3. f_equal. destruct (all_bound vals) eqn:Hall.
      - apply (finish_day_bound solver H maxD maxC b3); [exact Hwf3 | exact HH |].
        apply all_bound_true. exact Hall.
      - destruct (all_bound_false _ Hall) as (i & Hi & Hnone).
        apply (finish_day_unbound solver H maxD maxC b3 _ _ _ i Hwf3 HH Hi Hnone). }
    split; [exact Hday|].
    intros days. cbn [simulate_days]. unfold mbind, Sim_bind. rewrite Hday.
    destruct (all_bound vals); reflexivity.
  - intros Hsound HH Hlt.
    assert (Hst : st <> LpStatusOptimal).
    { intros Hopt. destruct (Hsound _ _ Hopt) as (a & [_ Hcs] & _).
      unfold b3 in Hcs. rewrite day_battery_constraints in Hcs.
      apply Forall_app in Hcs. destruct Hcs as [_ Hcs].
      apply Forall_app in Hcs. destruct Hcs as [Hcs _].
      revert Hcs. apply storage_constraints_infeasible; [exact HH | exact Hlt]. }
    split; [exact Hst|].
    unfold day_events. fold st. rewrite (Hwarn Hst). simpl. auto.
Qed.

Lemma C7_witness :
  wf_battery 24 2 2 (battery scenario_start) /\
  solver_sound scenario_solver /\
  let b3 := day_battery two_day_prices 2 1 1 100 24 3 0 scenario_start in
  fst (scenario_solver (battery_variables b3) (model b3)) <> LpStatusOptimal /\
  exists s',
    simulate_day scenario_solver two_day_prices 2 1 1 100 24 3 0 scenario_start []
    = ([] ++ day_events scenario_solver b3 0, Ok s').
Proof.
  split; [apply Battery_init_wf|].
  split; [apply candidate_solver_sound|].
  destruct (C7_non_optimal_status_is_a_warning scenario_solver 24 2 2 two_day_prices
              2 1 1 100 3 0 scenario_start [] (Battery_init_wf 24 2 2))
    as (_ & _ & Hday & Hinf).
  split.
  - apply Hinf; [apply candidate_solver_sound | lia | reflexivity].
  - destruct Hday as (Hs' & _); [lia | vm_compute; lia |].
    eexists. rewrite Hs'. vm_compute. reflexivity.
Defined.

(** C7 as stated fails: with a storage capacity (2 MWh) below the minimum
    capacity (3 MWh) and a solver that reports the problem as [Infeasible]
    and leaves the variables unbound, [solve_model] prints its warning and
    returns, and the run of [simulate_battery] then ends with a
    [TypeError]. *)
Lemma C7_counterexample :
  solver_sound (giving_up_solver [schedule_idle]) /\
  exists vs p,
    simulate_battery (giving_up_solver [schedule_idle]) 2 two_day_prices 2 2 2 1 1 100
      24%nat None 3 []
    = ([Print_trying_cycle 0; Solver_call vs p; Print_warning "Infeasible"],
       Raise TypeError).
Proof.
  split; [apply giving_up_solver_sound|].
  eexists _, _. vm_compute. reflexivity.
Qed.

(** C8. With one price per hour, [set_objective] succeeds and replaces the
    objective of the model by an expression whose value under any assignment
    is the profit [sum_{i<H} (discharge i * price i - charge i * price i)];
    the problem stays a maximisation, and the horizon, the variables, the
    constraints and the status are left as they were.  The variables are the
    ones of [Battery.__init__]: charge between 0 and the charge power
    capacity, discharge between 0 and the discharge power capacity, which
    every feasible assignment respects. *)
Theorem C8_set_objective_attaches_profit H maxD maxC b prices :
  wf_battery H maxD maxC b ->
  problem_sense (model b) = LpMaximize ->
  length prices = H ->
  exists b' e,
    set_objective b prices = Ok b' /\
    objective (model b') = Some e /\
    (forall a, eval a e == profit a prices H) /\
    problem_sense (model b') = LpMaximize /\
    time_horizon b' = time_horizon b /\
    charge b' = charge b /\
    discharge b' = discharge b /\
    constraints (model b') = constraints (model b) /\
    status (model b') = status (model b) /\
    (forall i, (i < H)%nat ->
       exists vc vd,
         charge b' !! i = Some vc /\ name vc = charging_power_c_t i /\
         lowBound vc = Some 0 /\ upBound vc = Some maxC /\
         discharge b' !! i = Some vd /\ name vd = discharging_power_d_t i /\
         lowBound vd = Some 0 /\ upBound vd = Some maxD) /\
    (forall a i, feasible (battery_variables b') (model b') a -> (i < H)%nat ->
       (0 <= a (charging_power_c_t i) /\ a (charging_power_c_t i) <= maxC) /\
       (0 <= a (discharging_power_d_t i) /\ a (discharging_power_d_t i) <= maxD)).
Proof.
  intros Hwf Hsense Hlen.
  exists (set_model b (LpProblem_iadd_objective (model b) (objective_expression prices H))),
         (objective_expression prices H).
  split; [apply (set_objective_wf H maxD maxC); assumption|].
  split; [reflexivity|].
  split; [intros a; apply eval_objective_expression|].
  split; [exact Hsense|].
  do 5 (split; [reflexivity|]).
  split.
  - intros i Hi. cbn [charge discharge set_model].
    destruct (wf_charge _ _ _ _ Hwf i Hi) as (vc & Hc & Hcn & Hcl & Hcu).
    destruct (wf_discharge _ _ _ _ Hwf i Hi) as (vd & Hd & Hdn & Hdl & Hdu).
    exists vc, vd. repeat split; assumption.
  - intros a i Hfeas Hi.
    apply (feasible_power_bounds H maxD maxC _ _ a i (set_model_wf _ _ _ _ _ Hwf) Hfeas Hi).
Qed.

Lemma C8_witness :
  wf_battery 2 3 4 (Battery_init 2 3 4) /\
  problem_sense (model (Battery_init 2 3 4)) = LpMaximize /\
  length [30; 50] = 2%nat /\
  is_Ok (set_objective (Battery_init 2 3 4) [30; 50]).
Proof.
  split; [apply Battery_init_wf|]. split; [reflexivity|]. split; [reflexivity|].
  destruct (C8_set_objective_attaches_profit 2 3 4 (Battery_init 2 3 4) [30; 50]
              (Battery_init_wf 2 3 4) eq_refl eq_refl) as (b' & e & Heq & _).
  rewrite Heq. exact I.
Defined.

(** C9 as the code has it.  [collect_output] does not look at whether the
    model was solved: on a battery of horizon at least 24 none of whose
    variables holds a value it returns two sequences of 24 [None]; below 24
    hours it raises [KeyError] for the first missing key.  The [None]s only
    raise later, as a [TypeError], when the driver sums them. *)
Theorem C9_collect_output_unsolved_returns_none H maxD maxC b :
  wf_battery H maxD maxC b ->
  unsolved b ->
  ((24 <= H)%nat -> collect_output b = Ok (repeat None 24, repeat None 24)) /\
  ((H < 24)%nat -> collect_output b = Raise (KeyError "c_t" H)) /\
  py_sum (repeat None 24) = Raise TypeError.
Proof.
  intros Hwf Hun. split; [|split].
  - intros HH. rewrite (collect_output_wf H maxD maxC) by assumption.
    f_equal. apply (f_equal2 pair).
    + transitivity (map (fun _ : nat => @None Q) (seq 0 24)); [|reflexivity].
      apply map_ext. intros i. apply (Hun i).
    + transitivity (map (fun _ : nat => @None Q) (seq 0 24)); [|reflexivity].
      apply map_ext. intros i. apply (Hun i).
  - intros HH. apply (collect_output_short H maxD maxC); assumption.
  - reflexivity.
Qed.

Lemma C9_witness :
  wf_battery 24 10 10 (Battery_init 24 10 10) /\
  unsolved (Battery_init 24 10 10) /\
  collect_output (Battery_init 24 10 10) = Ok (repeat None 24, repeat None 24).
Proof.
  split; [apply Battery_init_wf|]. split; [apply Battery_init_unsolved|].
  apply (proj1 (C9_collect_output_unsolved_returns_none 24 10 10 (Battery_init 24 10 10)
                  (Battery_init_wf 24 10 10) (Battery_init_unsolved 24 10 10))).
  lia.
Defined.

(** C9 as stated fails: with the parameters of [execute.py] and a model that
    has its objective and constraints but was never solved, [collect_output]
    returns 24 unbound values for each series instead of raising. *)
Lemma C9_counterexample :
  exists b3,
    prepare_day (Battery_init 24 10 10) (repeat 50 24) (86 # 100) 4 50 (86 # 100) 4 50
    = Ok b3 /\
    status (model b3) = LpStatusNotSolved /\
    collect_output b3 = Ok (repeat None 24, repeat None 24).
Proof.
  eexists. split.
  - apply (prepare_day_wf 24 10 10); [apply Battery_init_wf | reflexivity].
  - split; [reflexivity|]. vm_compute. reflexivity.
Qed.

(** C10. The result of [simulate_battery] (outputs and events) does not
    depend on [start_day]. *)
Theorem C10_start_day_is_not_read solver initial_level price_data
    max_discharge_power_capacity max_charge_power_capacity discharge_energy_capacity
    efficiency discharge_efficiency max_daily_discharged_throughput time_horizon
    (start_day start_day' : option Timestamp) min_capacity log :
  simulate_battery solver initial_level price_data max_discharge_power_capacity
    max_charge_power_capacity discharge_energy_capacity efficiency discharge_efficiency
    max_daily_discharged_throughput time_horizon start_day min_capacity log
  = simulate_battery solver initial_level price_data max_discharge_power_capacity
      max_charge_power_capacity discharge_energy_capacity efficiency discharge_efficiency
      max_daily_discharged_throughput time_horizon start_day' min_capacity log.
Proof. reflexivity. Qed.

(** * Further properties *)

(** X2. When a sound solver answers every day of a run with status
    [Optimal] (no warning is printed) and the run completes, every hourly
    charge and discharge returned is a number between zero and the power
    capacity given to [Battery.__init__]. *)
Theorem X2_hourly_power_within_capacities solver sim_length L price_data maxD maxC
    discharge_energy_capacity efficiency discharge_efficiency max_daily_discharged_throughput
    H start_day min_capacity log log' c d soe t :
  solver_sound solver ->
  simulate_battery_for solver sim_length L price_data maxD maxC
    discharge_energy_capacity efficiency discharge_efficiency max_daily_discharged_throughput
    H start_day min_capacity log = (log', Ok (c, d, soe, t)) ->
  warnings log' = warnings log ->
  Forall (fun o => exists q, o = Some q /\ 0 <= q /\ q <= maxC) c /\
  Forall (fun o => exists q, o = Some q /\ 0 <= q /\ q <= maxD) d.
Proof.
  intros Hsound Hrun Hw.
  destruct (simulate_battery_for_within_limits _ _ _ _ _ _ _ _ _ _ _ _ _ _ _ _ _ _ _
              Hsound Hrun Hw) as (_ & Hc & Hd & _).
  split; assumption.
Qed.

Lemma X2_witness :
  solver_sound scenario_solver /\
  exists log' c d soe t,
    simulate_battery scenario_solver 2 two_day_prices 2 2 2 1 1 100 24%nat None 0 []
    = (log', Ok (c, d, soe, t)) /\
    warnings log' = warnings [] /\
    Forall (fun o => exists q, o = Some q /\ 0 <= q /\ q <= 2) d.
Proof.
  split; [apply candidate_solver_sound|].
  eexists _, _, _, _, _. split; [vm_compute; reflexivity|]. split; [reflexivity|].
  eapply (X2_hourly_power_within_capacities scenario_solver 1 2 two_day_prices 2 2 2 1 1
            100 24 None 0 []).
  - apply candidate_solver_sound.
  - vm_compute. reflexivity.
  - reflexivity.
Defined.



(** X4. [solve_model] followed by [collect_output] hands back, hour by hour
    for the first 24 hours, exactly what the solver reported for the charge
    and discharge variables (an unbound variable comes back as [None]); the
    solve changes neither the horizon nor the objective nor the constraints
    of the model. *)
Theorem X4_collect_output_returns_solver_values solver H maxD maxC b log :
  wf_battery H maxD maxC b ->
  (24 <= H)%nat ->
  exists b4 log',
    solve_model solver b log = (log', Ok b4) /\
    collect_output b4
    = Ok (map (fun i => snd (solver (battery_variables b) (model b)) (charging_power_c_t i))
            (seq 0 24),
          map (fun i => snd (solver (battery_variables b) (model b))
                          (discharging_power_d_t i)) (seq 0 24)) /\
    status (model b4) = fst (solver (battery_variables b) (model b)) /\
    time_horizon b4 = time_horizon b /\
    objective (model b4) = objective (model b) /\
    constraints (model b4) = constraints (model b).
Proof.
  intros Hwf HH. exists (solved solver b). eexists.
  split; [apply solve_model_run|].
  split; [apply (collect_output_solved solver H maxD maxC); assumption|].
  repeat split.
Qed.

Lemma X4_witness :
  wf_battery 24 10 10 (Battery_init 24 10 10) /\
  exists b4 log',
    solve_model idle_solver (Battery_init 24 10 10) [] = (log', Ok b4) /\
    collect_output b4 = Ok (repeat (Some 0) 24, repeat (Some 0) 24).
Proof.
  split; [apply Battery_init_wf|].
  destruct (X4_collect_output_returns_solver_values idle_solver 24 10 10
              (Battery_init 24 10 10) [] (Battery_init_wf 24 10 10) (le_n 24))
    as (b4 & log' & Hsolve & Hcollect & _).
  exists b4, log'. split; [exact Hsolve|]. rewrite Hcollect. vm_compute. reflexivity.
Defined.

(** X5. A day whose window of prices is complete, on a horizon of at least
    24 hours, always reaches the solver; it then completes exactly when the
    solver left a number in every charge and discharge variable of the first
    24 hours, and otherwise ends with a [TypeError] (the arithmetic on
    [None]), whatever status the solver reported. *)
Theorem X5_day_completes_iff_values_bound solver price_data discharge_energy_capacity
    efficiency discharge_efficiency max_daily_discharged_throughput H min_capacity
    day_count s log maxD maxC :
  wf_battery H maxD maxC (battery s) ->
  (24 <= H)%nat ->
  length (data_for_this_day price_data day_count H) = H ->
  let b3 := day_battery price_data discharge_energy_capacity efficiency discharge_efficiency
              max_daily_discharged_throughput H min_capacity day_count s in
  simulate_day solver price_data discharge_energy_capacity efficiency discharge_efficiency
    max_daily_discharged_throughput H min_capacity day_count s log
  = (log ++ day_events solver b3 day_count,
     if all_bound (snd (solver (battery_variables b3) (model b3)))
     then Ok (day_step solver b3 efficiency discharge_efficiency s)
     else Raise TypeError).
Proof.
  intros Hwf HH Hlen b3.
  assert (Hwf3 : wf_battery H maxD maxC b3) by (apply set_model_wf; exact Hwf).
  rewrite (simulate_day_split _ _ _ _ _ _ _ _ _ _ _ maxD maxC Hwf Hlen). fold b3.
  f_equal. destruct (all_bound _) eqn:Hall.
  - apply (finish_day_bound solver H maxD maxC b3); [exact Hwf3 | exact HH |].
    apply all_bound_true. exact Hall.
  - destruct (all_bound_false _ Hall) as (i & Hi & Hnone).
    apply (finish_day_unbound solver H maxD maxC b3 _ _ _ i Hwf3 HH Hi Hnone).
Qed.

Lemma X5_witness :
  wf_battery 24 10 10 (battery (start_state 24 10 10 4)) /\
  length (data_for_this_day (repeat 50 24) 0 24) = 24%nat /\
  snd (simulate_day silent_solver (repeat 50 24) 50 (86 # 100) (86 # 100) 50 24 4 0
         (start_state 24 10 10 4) [])
  = Raise TypeError.
Proof.
  split; [apply Battery_init_wf|]. split; [reflexivity|].
  rewrite (X5_day_completes_iff_values_bound silent_solver (repeat 50 24) 50 (86 # 100)
             (86 # 100) 50 24 4 0 (start_state 24 10 10 4) [] 10 10
             (Battery_init_wf 24 10 10) (le_n 24) eq_refl).
  reflexivity.
Defined.

(** X6. With a horizon below 24 hours (and one price per hour of it)
    [simulate_battery] never returns: the model is built and the solver is
    called once, then [collect_output] raises [KeyError] for the first hour
    beyond the horizon. *)
Theorem X6_short_horizon_raises_key_error solver L price_data maxD maxC
    discharge_energy_capacity efficiency discharge_efficiency max_daily_discharged_throughput
    H start_day min_capacity log :
  (H < 24)%nat ->
  length (data_for_this_day price_data 0 H) = H ->
  let b3 := day_battery price_data discharge_energy_capacity efficiency discharge_efficiency
              max_daily_discharged_throughput H min_capacity 0 (start_state H maxD maxC L) in
  simulate_battery solver L price_data maxD maxC discharge_energy_capacity efficiency
    discharge_efficiency max_daily_discharged_throughput H start_day min_capacity log
  = (log ++ day_events solver b3 0, Raise (KeyError "c_t" H)) /\
  solver_calls (day_events solver b3 0) = 1%nat.
Proof.
  intros HH Hlen b3. split.
  - unfold simulate_battery, simulate_battery_for. cbn [seq simulate_days].
    unfold mbind at 1 2. unfold Sim_bind.
    fold (start_state H maxD maxC L).
    rewrite (simulate_day_split _ _ _ _ _ _ _ _ _ _ _ maxD maxC
               (Battery_init_wf H maxD maxC : wf_battery H maxD maxC
                  (battery (start_state H maxD maxC L))) Hlen).
    fold b3.
    rewrite (finish_day_short solver H maxD maxC b3); [reflexivity | | exact HH].
    apply set_model_wf, Battery_init_wf.
  - unfold day_events. cbn [solver_calls]. destruct (fst _); reflexivity.
Qed.

Lemma X6_witness :
  (12 < 24)%nat /\
  length (data_for_this_day (repeat 50 24) 0 12) = 12%nat /\
  snd (simulate_battery idle_solver 4 (repeat 50 24) 10 10 50 (86 # 100) (86 # 100) 50 12
         None 4 [])
  = Raise (KeyError "c_t" 12).
Proof.
  split; [lia|]. split; [reflexivity|].
  rewrite (proj1 (X6_short_horizon_raises_key_error idle_solver 4 (repeat 50 24) 10 10 50
                    (86 # 100) (86 # 100) 50 12 None 4 [] ltac:(lia) eq_refl)).
  reflexivity.
Defined.

(** X7. When the price data covers the first [m] days of a longer run but
    not the horizon of day [m], the run does not stop there with what it
    has: the [m] complete days are simulated (one call to the solver each),
    then day [m] prints its line and [set_objective] raises its length
    error, so no output is returned. *)
Theorem X7_price_data_exhausted solver sim_length m L price_data maxD maxC
    discharge_energy_capacity efficiency discharge_efficiency max_daily_discharged_throughput
    H start_day min_capacity log :
  solver_binds solver ->
  (24 <= H)%nat ->
  (m < sim_length)%nat ->
  (24 * m + H <= length price_data + 24)%nat ->
  (length price_data < 24 * m + H)%nat ->
  exists events,
    simulate_battery_for solver sim_length L price_data maxD maxC
      discharge_energy_capacity efficiency discharge_efficiency
      max_daily_discharged_throughput H start_day min_capacity log
    = (log ++ events ++ [Print_trying_cycle m],
       Raise (AssertionError "Error: need one price for each hour in time horizon")) /\
    cycles events = seq 0 m /\
    solver_calls events = m.
Proof.
  intros Hb HH Hm Hdata Hshort.
  set (r := run_days solver price_data discharge_energy_capacity efficiency
              discharge_efficiency max_daily_discharged_throughput H min_capacity
              (seq 0 m) (start_state H maxD maxC L)).
  exists (fst r). split; [|split].
  - unfold simulate_battery_for. fold (start_state H maxD maxC L).
    replace (seq 0 sim_length) with (seq 0 m ++ m :: seq (S m) (sim_length - S m)).
    2:{ change (m :: seq (S m) (sim_length - S m)) with (seq m (S (sim_length - S m))).
        rewrite <- seq_app. f_equal. lia. }
    unfold mbind at 1. unfold Sim_bind. rewrite simulate_days_app.
    rewrite (simulate_days_ok _ _ _ _ _ _ _ _ maxD maxC) by
      (try assumption; try apply Battery_init_wf; intros d Hd; apply in_seq in Hd; lia).
    fold r. cbn [simulate_days]. unfold mbind, Sim_bind.
    rewrite (simulate_day_short _ _ _ _ _ _ _ _ _ _ _ maxD maxC).
    + rewrite <- app_assoc. reflexivity.
    + apply run_days_wf, Battery_init_wf.
    + rewrite data_for_this_day_complete. lia.
  - apply run_days_cycles.
  - destruct (run_days_lengths solver price_data discharge_energy_capacity efficiency
                discharge_efficiency max_daily_discharged_throughput H min_capacity
                (seq 0 m) (start_state H maxD maxC L)) as (_ & _ & _ & _ & Hs).
    fold r in Hs. rewrite Hs, length_seq. reflexivity.
Qed.

Lemma X7_witness :
  solver_binds scenario_solver /\
  (24 * 0 + 24 <= length (firstn 20 two_day_prices) + 24)%nat /\
  (length (firstn 20 two_day_prices) < 24 * 0 + 24)%nat /\
  snd (simulate_battery scenario_solver 2 (firstn 20 two_day_prices) 2 2 2 1 1 100 24
         None 0 [])
  = Raise (AssertionError "Error: need one price for each hour in time horizon").
Proof.
  split; [apply candidate_solver_binds|].
  split; [vm_compute; lia|]. split; [vm_compute; lia|].
  destruct (X7_price_data_exhausted scenario_solver 1 0 2 (firstn 20 two_day_prices) 2 2 2
              1 1 100 24 None 0 [] (candidate_solver_binds _))
    as (events & Hrun & _); [lia | lia | vm_compute; lia | vm_compute; lia |].
  unfold simulate_battery. rewrite Hrun. reflexivity.
Defined.



(** X9. Solving a day on the battery the loop reuses can only restrict the
    schedules: every schedule feasible for the model of a day on the reused
    battery is feasible for the model the same day would have on a battery
    built anew and seeded with the same level, the objective is the same, and
    so the best profit on the reused battery never exceeds the best profit on
    a new one. *)
Theorem X9_reused_model_only_restricts price_data discharge_energy_capacity
    efficiency discharge_efficiency max_daily_discharged_throughput H min_capacity
    day_count s maxD maxC :
  wf_battery H maxD maxC (battery s) ->
  let reused := day_battery price_data discharge_energy_capacity efficiency
                  discharge_efficiency max_daily_discharged_throughput H min_capacity
                  day_count s in
  let anew := day_battery price_data discharge_energy_capacity efficiency
                discharge_efficiency max_daily_discharged_throughput H min_capacity
                day_count (start_state H maxD maxC (initial_level s)) in
  (forall a, feasible (battery_variables reused) (model reused) a ->
             feasible (battery_variables anew) (model anew) a) /\
  (forall a, objective_value (model reused) a = objective_value (model anew) a) /\
  (forall a a',
     optimal (battery_variables reused) (model reused) a ->
     optimal (battery_variables anew) (model anew) a' ->
     objective_value (model reused) a <= objective_value (model anew) a').
Proof.
  intros Hwf reused anew.
  assert (Hfeas : forall a, feasible (battery_variables reused) (model reused) a ->
                            feasible (battery_variables anew) (model anew) a).
  { intros a Ha. apply (day_battery_feasible _ _ _ _ _ _ _ _ _ maxD maxC a Hwf) in Ha.
    destruct Ha as (Hp & _ & Hs & Ht).
    apply (day_battery_feasible _ _ _ _ _ _ _ _ _ maxD maxC a
             (Battery_init_wf H maxD maxC : wf_battery H maxD maxC
                (battery (start_state H maxD maxC (initial_level s))))).
    split; [exact Hp|]. split; [constructor|]. split; [exact Hs | exact Ht]. }
  split; [exact Hfeas|]. split; [reflexivity|].
  intros a a' [Ha _] [_ Hbest]. apply (Hbest a), Hfeas, Ha.
Qed.

Lemma X9_witness :
  wf_battery 24 2 2 (battery scenario_state1) /\
  (feasible (battery_variables scenario_day2) (model scenario_day2) schedule_idle ->
   feasible (battery_variables scenario_fresh2) (model scenario_fresh2) schedule_idle).
Proof.
  split; [apply solved_wf, set_model_wf, Battery_init_wf|].
  apply (proj1 (X9_reused_model_only_restricts two_day_prices 2 1 1 100 24 0 1
                  scenario_state1 2 2
                  (solved_wf _ _ _ _ _ (set_model_wf _ _ _ _ _ (Battery_init_wf 24 2 2))))
           schedule_idle).
Defined.

(** X10. On the first day of a run (horizon of at least one hour) leaving
    the battery idle is a feasible schedule exactly when the power
    capacities and the throughput cap are not negative and the initial level
    lies between the minimum capacity and the discharge energy capacity.  So
    with such parameters the problem of the first day is never infeasible. *)
Theorem X10_idle_first_day_feasible_iff price_data discharge_energy_capacity efficiency
    discharge_efficiency max_daily_discharged_throughput H min_capacity maxD maxC L :
  (1 <= H)%nat ->
  let b3 := day_battery price_data discharge_energy_capacity efficiency discharge_efficiency
              max_daily_discharged_throughput H min_capacity 0 (start_state H maxD maxC L) in
  feasible (battery_variables b3) (model b3) schedule_idle <->
  0 <= maxC /\ 0 <= maxD /\
  min_capacity <= L /\ L <= discharge_energy_capacity /\
  0 <= max_daily_discharged_throughput.
Proof.
  intros HH b3. unfold b3.
  rewrite (day_battery_feasible _ _ _ _ _ _ _ _ _ maxD maxC schedule_idle
             (Battery_init_wf H maxD maxC : wf_battery H maxD maxC
                (battery (start_state H maxD maxC L)))).
  cbn [initial_level start_state].
  rewrite (sum_upto_zero H (fun i => schedule_idle (discharging_power_d_t i)))
    by (intros; reflexivity).
  split.
  - intros (Hp & _ & Hs & Ht).
    destruct (Hp 0%nat ltac:(lia)) as [[_ HC] [_ HD]]. unfold schedule_idle in HC, HD.
    destruct (Hs 1%nat ltac:(lia)) as [Hlo Hup]. rewrite state_of_energy_idle in Hlo, Hup.
    auto.
  - intros (HC & HD & Hlo & Hup & Ht). split; [|split; [constructor | split]].
    + intros i Hi. unfold schedule_idle. repeat split; try assumption; apply Qle_refl.
    + intros k Hk. rewrite state_of_energy_idle. auto.
    + exact Ht.
Qed.

Lemma X10_witness :
  (1 <= 24)%nat /\
  let b3 := day_battery (repeat 50 24) 50 (86 # 100) (86 # 100) 50 24 4 0
              (start_state 24 10 10 4) in
  feasible (battery_variables b3) (model b3) schedule_idle.
Proof.
  split; [lia|].
  apply (proj2 (X10_idle_first_day_feasible_iff (repeat 50 24) 50 (86 # 100) (86 # 100)
                  50 24 4 10 10 4 ltac:(lia))).
  vm_compute. repeat split; discriminate.
Defined.

(** X11. The state of energy returned by a run is one cumulative sum over
    the whole run, across the days: its entry for hour [j] is the initial
    level given to [simulate_battery] plus the net flows (charge times
    efficiency minus discharge times discharge efficiency) of the hours 0 to
    [j] of the returned charges and discharges. *)
Theorem X11_state_of_energy_is_cumulative_over_run solver sim_length L price_data maxD maxC
    discharge_energy_capacity efficiency discharge_efficiency max_daily_discharged_throughput
    H start_day min_capacity log :
  solver_binds solver ->
  (24 <= H)%nat ->
  (24 * sim_length + H <= length price_data + 24)%nat ->
  exists log' c d soe t,
    simulate_battery_for solver sim_length L price_data maxD maxC
      discharge_energy_capacity efficiency discharge_efficiency
      max_daily_discharged_throughput H start_day min_capacity log
    = (log', Ok (c, d, soe, t)) /\
    forall j, (j < 24 * sim_length)%nat ->
      nth j soe 0
      == L + sum_upto (S j)
               (fun i => entry c i * efficiency - entry d i * discharge_efficiency).
Proof.
  intros Hb HH Hdata. eexists _, _, _, _, _. split.
  { apply simulate_battery_for_ok; assumption. }
  set (r := run_days solver price_data discharge_energy_capacity efficiency
              discharge_efficiency max_daily_discharged_throughput H min_capacity
              (seq 0 sim_length) (start_state H maxD maxC L)).
  destruct (run_days_balanced solver price_data discharge_energy_capacity efficiency
              discharge_efficiency max_daily_discharged_throughput H min_capacity L
              (seq 0 sim_length) (start_state H maxD maxC L)
              (start_state_balanced H maxD maxC L efficiency discharge_efficiency))
    as (_ & _ & Hsoe & _).
  fold r in Hsoe.
  destruct (run_days_lengths solver price_data discharge_energy_capacity efficiency
              discharge_efficiency max_daily_discharged_throughput H min_capacity
              (seq 0 sim_length) (start_state H maxD maxC L)) as (_ & _ & He & _).
  fold r in He. rewrite length_seq in He. simpl in He.
  intros j Hj. apply Hsoe. rewrite He. exact Hj.
Qed.

Lemma X11_witness :
  solver_binds scenario_solver /\
  exists log' c d soe t,
    simulate_battery scenario_solver 2 two_day_prices 2 2 2 1 1 100 24%nat None 0 []
    = (log', Ok (c, d, soe, t)) /\
    nth 23 soe 0 == 2 + sum_upto 24 (fun i => entry c i * 1 - entry d i * 1).
Proof.
  split; [apply candidate_solver_binds|].
  destruct (X11_state_of_energy_is_cumulative_over_run scenario_solver 1 2 two_day_prices
              2 2 2 1 1 100 24 None 0 [] (candidate_solver_binds _))
    as (log' & c & d & soe & t & Hrun & Hsoe); [lia | vm_compute; lia |].
  exists log', c, d, soe, t. split; [exact Hrun|]. apply Hsoe. lia.
Defined.

(** X12. The daily discharge throughputs returned by a run add up to the sum
    of all the hourly discharges it returns. *)
Theorem X12_daily_throughputs_add_up solver sim_length L price_data maxD maxC
    discharge_energy_capacity efficiency discharge_efficiency max_daily_discharged_throughput
    H start_day min_capacity log :
  solver_binds solver ->
  (24 <= H)%nat ->
  (24 * sim_length + H <= length price_data + 24)%nat ->
  exists log' c d soe t,
    simulate_battery_for solver sim_length L price_data maxD maxC
      discharge_energy_capacity efficiency discharge_efficiency
      max_daily_discharged_throughput H start_day min_capacity log
    = (log', Ok (c, d, soe, t)) /\
    length d = (24 * sim_length)%nat /\
    fold_left Qplus t 0 == sum_upto (24 * sim_length) (entry d).
Proof.
  intros Hb HH Hdata. eexists _, _, _, _, _. split.
  { apply simulate_battery_for_ok; assumption. }
  set (r := run_days solver price_data discharge_energy_capacity efficiency
              discharge_efficiency max_daily_discharged_throughput H min_capacity
              (seq 0 sim_length) (start_state H maxD maxC L)).
  destruct (run_days_balanced solver price_data discharge_energy_capacity efficiency
              discharge_efficiency max_daily_discharged_throughput H min_capacity L
              (seq 0 sim_length) (start_state H maxD maxC L)
              (start_state_balanced H maxD maxC L efficiency discharge_efficiency))
    as (_ & _ & _ & _ & Hthr).
  fold r in Hthr.
  destruct (run_days_lengths solver price_data discharge_energy_capacity efficiency
              discharge_efficiency max_daily_discharged_throughput H min_capacity
              (seq 0 sim_length) (start_state H maxD maxC L)) as (_ & Hd & He & _).
  fold r in Hd, He. rewrite length_seq in Hd, He. simpl in Hd, He.
  split; [exact Hd|]. rewrite He in Hthr. exact Hthr.
Qed.

Lemma X12_witness :
  solver_binds scenario_solver /\
  exists log' c d soe t,
    simulate_battery scenario_solver 2 two_day_prices 2 2 2 1 1 100 24%nat None 0 []
    = (log', Ok (c, d, soe, t)) /\
    fold_left Qplus t 0 == sum_upto 24 (entry d).
Proof.
  split; [apply candidate_solver_binds|].
  destruct (X12_daily_throughputs_add_up scenario_solver 1 2 two_day_prices
              2 2 2 1 1 100 24 None 0 [] (candidate_solver_binds _))
    as (log' & c & d & soe & t & Hrun & _ & Hthr); [lia | vm_compute; lia |].
  exists log', c, d, soe, t. split; [exact Hrun | exact Hthr].
Defined.

(** X13. On a battery of horizon [H], [add_throughput_constraints] succeeds
    and appends one constraint, leaving the objective as it is; an assignment
    satisfies the constraints of the model afterwards exactly when it
    satisfied those already there and its discharge summed over all the [H]
    hours of the horizon is at most [max_daily_discharged_throughput]. *)
Theorem X13_throughput_constraint_caps_horizon_discharge H maxD maxC b
    max_daily_discharged_throughput :
  wf_battery H maxD maxC b ->
  exists b',
    add_throughput_constraints b max_daily_discharged_throughput = Ok b' /\
    length (constraints (model b')) = S (length (constraints (model b))) /\
    objective (model b') = objective (model b) /\
    forall a,
      Forall (holds a) (constraints (model b')) <->
      Forall (holds a) (constraints (model b)) /\
      sum_upto H (fun i => a (discharging_power_d_t i)) <= max_daily_discharged_throughput.
Proof.
  intros Hwf. eexists. split; [apply (add_throughput_constraints_wf H maxD maxC); exact Hwf|].
  cbn [model set_model constraints objective add_constraints].
  split; [rewrite length_app; cbn [length]; lia|]. split; [reflexivity|].
  intros a. rewrite Forall_app, Forall_singleton, holds_throughput_constraint. reflexivity.
Qed.

Lemma X13_witness :
  wf_battery 3 2 2 (Battery_init 3 2 2) /\
  exists b',
    add_throughput_constraints (Battery_init 3 2 2) 1 = Ok b' /\
    ~ Forall (holds (fun _ => 1 # 2)) (constraints (model b')).
Proof.
  split; [apply Battery_init_wf|].
  destruct (X13_throughput_constraint_caps_horizon_discharge 3 2 2 (Battery_init 3 2 2) 1
              (Battery_init_wf 3 2 2)) as (b' & Hadd & _ & _ & Hiff).
  exists b'. split; [exact Hadd|].
  intros Hall. apply Hiff in Hall. destruct Hall as [_ Hsum].
  vm_compute in Hsum. apply Hsum. reflexivity.
Defined.
